(** * Request construction and authentication layer of node-twitter-api-v2

    A shallow embedding of [ClientRequestMaker] (request-maker mixin):
    [saveRateLimit], [send], [sendStream], [buildOAuth],
    [getOAuthAccessTokens], [writeAuthHeaders] and [getHttpRequestArgs].

    JavaScript objects that the caller hands to the client (headers, body
    and query mappings) live in a store and are passed by reference, as in
    the source; every write of the source is a write to that store.  Code
    of other modules ([RequestParamHelpers], [OAuth1Helper], [OAuth2Helper],
    the WHATWG [URL] class, [TweetStream], [RequestHandlerHelper]) is taken
    as a parameter through the classes [Platform], [ParamHelpers] and
    [OAuthApi]. *)

From stdpp Require Import gmap strings list fin_maps pretty.
From Stdlib Require Import ZArith.
From Stdlib Require Strings.Byte.
From Stdlib Require Import Strings.Ascii.

Open Scope string_scope.
Set Warnings "-register-all".

(** ** JavaScript values and truthiness *)

Inductive JsValue :=
  | JUndefined
  | JNull
  | JBool (b : bool)
  | JNum (n : Z)
  | JStr (s : string)
  | JArr (items : list JsValue)
  | JObj (fields : list (string * JsValue)).

Definition is_undefined (v : JsValue) : bool :=
  match v with JUndefined => true | _ => false end.

(** [if (s)] on a value of type [string | undefined]: the empty string and
    [undefined] are falsy. *)
Definition truthy (s : option string) : bool :=
  match s with
  | Some (String _ _) => true
  | _ => false
  end.

(** [x !== false] on a value of type [boolean | undefined]. *)
Definition not_false (b : option bool) : bool :=
  match b with Some false => false | _ => true end.

(** [a || b] followed by a boolean test, on [boolean | undefined]. *)
Definition or_truthy (a b : option bool) : bool :=
  match a with Some true => true | _ => default false b end.

(** ** Data model *)

Definition loc := positive.

(** The body handed over by the caller: a reference to an object, or a
    [Buffer]. *)
Inductive TRequestBody :=
  | BodyRef (l : loc)
  | BodyBuffer (bytes : list Byte.byte).

(** What a helper sees when it reads the body. *)
Inductive BodyData :=
  | DataObject (m : gmap string JsValue)
  | DataBuffer (bytes : list Byte.byte).

(** The encoded body, [string | Buffer]. *)
Inductive BodyPayload :=
  | PayloadString (s : string)
  | PayloadBuffer (bytes : list Byte.byte).

(** [x || undefined] on [string | Buffer | undefined]: only the empty string
    is falsy. *)
Definition or_undefined (p : option BodyPayload) : option BodyPayload :=
  match p with
  | Some (PayloadString "") => None
  | _ => p
  end.

(** [if (args.body)]. *)
Definition payload_truthy (p : option BodyPayload) : bool :=
  match or_undefined p with Some _ => true | None => false end.

(** Modelled from the spec: the declaration of [TwitterRateLimit] lives in
    the types module; the spec describes it as the remaining / limit /
    reset-epoch triple. *)
Record TwitterRateLimit := {
  rl_limit : Z;
  rl_remaining : Z;
  rl_reset : Z;
}.

Record OAuthTokens := { tok_key : string; tok_secret : string }.

(** [new OAuth1Helper({ consumerKeys: { key, secret } })]. *)
Record OAuth1Helper := { consumerKeys : OAuthTokens }.

(** The argument of [OAuth1Helper.authorize]. *)
Record OAuthRequest := {
  oa_url : string;
  oa_method : string;
  oa_data : gmap string JsValue;
}.

Inductive Outcome (A : Type) :=
  | Returned (a : A)
  | Thrown (message : string).
Arguments Returned {A} a.
Arguments Thrown {A} message.

(** ** External collaborators *)

Class Platform := {
  (** the WHATWG [URL] class; [newURL] is [None] when [new URL(s)] throws *)
  URL : Type;
  newURL : string → option URL;
  url_origin : URL → string;
  url_pathname : URL → string;
  url_toString : URL → string;
  (** [String.prototype.toUpperCase] *)
  toUpperCase : string → string;
  (** opaque values that are only passed along *)
  HttpAgent : Type;
  DebugHandler : Type;
  PayloadPredicate : Type;
}.

Class OAuthApi := {
  (** nonce and timestamp read by the signer *)
  Entropy : Type;
  OAuthAuthorization : Type;
  authorize : OAuth1Helper → Entropy → OAuthRequest → option OAuthTokens → OAuthAuthorization;
  toHeader : OAuth1Helper → OAuthAuthorization → gmap string string;
  (** [OAuth2Helper.getAuthHeader] *)
  getAuthHeader : string → string → string;
}.

(** The static methods of [RequestParamHelpers] used by the request maker.
    Helpers that mutate an argument return its new contents. *)
Class ParamHelpers `{Platform} := {
  applyRequestParametersToUrl : URL → gmap string string → URL;
  formatQueryToString : gmap string JsValue → gmap string string;
  moveUrlQueryParamsIntoObject : URL → gmap string string → URL * gmap string string;
  autoDetectBodyType : URL → string;
  mergeQueryAndBodyForOAuth : gmap string string → BodyData → gmap string JsValue;
  constructBodyParams :
    BodyData → gmap string string → string → Outcome (option BodyPayload) * gmap string string;
  addQueryParamsToUrl : URL → gmap string string → URL;
  setBodyLengthHeader : gmap string string → BodyPayload → gmap string string;
}.

(** Modelled from the spec: [trimUndefinedProperties] of the helpers module
    removes, in place, the keys of a body mapping whose value is
    [undefined]. *)
Definition trimUndefinedProperties (m : gmap string JsValue) : gmap string JsValue :=
  filter (λ kv, is_undefined kv.2 = false) m.

(** A query passed where signature data is expected (TypeScript subtyping:
    every value is a string). *)
Definition query_data (q : gmap string string) : gmap string JsValue := JStr <$> q.

Definition BODY_METHODS : gset string := {[ "POST"; "PUT"; "PATCH" ]}.

Definition is_body_method (m : string) : bool := bool_decide (m ∈ BODY_METHODS).

(** Lines 170-173: add the protocol when the URL does not start with
    [http]. *)
Definition addProtocol (url : string) : string :=
  if String.prefix "http" url then url else "https://" ++ url.

Section RequestMaker.
Context `{PH : ParamHelpers} `{OA : OAuthApi}.

Record IClientSettings := {
  httpAgent : option HttpAgent;
  cs_disableCompression : option bool;
}.

Record ClientRequestMaker := {
  _bearerToken : option string;
  _consumerToken : option string;
  _consumerSecret : option string;
  _accessToken : option string;
  _accessSecret : option string;
  _basicToken : option string;
  _clientId : option string;
  _clientSecret : option string;
  _oauth : option OAuth1Helper;
  _rateLimits : gmap string TwitterRateLimit;
  _clientSettings : IClientSettings;
}.

(** [IGetHttpRequestArgs & IGetStreamRequestArgs]; an absent option is
    [None]. Objects are given by reference. *)
Record IGetHttpRequestArgs := {
  a_url : string;
  a_method : string;
  a_query : option loc;
  a_body : option TRequestBody;
  a_headers : option loc;
  a_forceBodyMode : option string;
  a_enableAuth : option bool;
  a_params : option (gmap string string);
  a_timeout : option Z;
  a_enableRateLimitSave : option bool;
  a_disableCompression : option bool;
  a_requestEventDebugHandler : option DebugHandler;
  a_payloadIsError : option PayloadPredicate;
  a_autoConnect : option bool;
}.

(** The value returned by [getHttpRequestArgs]. *)
Record RequestDescriptor := {
  rawUrl : string;
  d_url : URL;
  d_method : string;
  d_headers : loc;
  d_body : option BodyPayload;
}.

Record ClientRequestOptions := {
  o_method : string;
  o_headers : loc;
  o_timeout : option Z;
  o_agent : option HttpAgent;
}.

(** [TRequestFullData] and [TRequestFullStreamData]; the bound closure
    [this.saveRateLimit.bind(this, rawUrl)] is represented by the key it
    captures. *)
Record TRequestFullData := {
  r_url : URL;
  r_options : ClientRequestOptions;
  r_body : option BodyPayload;
  r_rateLimitSaver : option string;
  r_requestEventDebugHandler : option DebugHandler;
  r_payloadIsError : option PayloadPredicate;
  r_compression : bool;
}.

Record TweetStream := { ts_requestData : TRequestFullData }.

(** Calls to external collaborators, in program order. *)
Inductive Event :=
  | EvAuthorize (o : OAuth1Helper) (req : OAuthRequest) (tokens : option OAuthTokens)
  | EvMakeRequest (data : TRequestFullData)
  | EvNewStream (data : TRequestFullData)
  | EvConnect (s : TweetStream).

(** The store: contents of header, body and query objects, and the trace
    of external calls.  An object lives in the heap of the role it is passed
    in, so the store describes callers that pass three distinct objects as
    headers, body and query; one object passed in two roles is not described.
    Objects are plain writable objects: a write never throws. *)
Record World := {
  w_headers : gmap loc (gmap string string);
  w_bodies : gmap loc (gmap string JsValue);
  w_queries : gmap loc (gmap string JsValue);
  w_trace : list Event;
}.

Definition Eff (A : Type) : Type := World → Outcome A * World.

Definition ret {A} (a : A) : Eff A := λ w, (Returned a, w).

Definition bind {A B} (m : Eff A) (k : A → Eff B) : Eff B :=
  λ w, match m w with
       | (Returned a, w') => k a w'
       | (Thrown e, w') => (Thrown e, w')
       end.

Definition throw {A} (e : string) : Eff A := λ w, (Thrown e, w).

Notation "'let!' x ':=' m 'in' k" := (bind m (λ x, k))
  (at level 10, x pattern, k at level 200).

(** *** Store primitives *)

Definition with_headers (l : loc) (h : gmap string string) (w : World) : World :=
  {| w_headers := <[l := h]> (w_headers w);
     w_bodies := w_bodies w;
     w_queries := w_queries w;
     w_trace := w_trace w |}.

Definition with_body (l : loc) (b : gmap string JsValue) (w : World) : World :=
  {| w_headers := w_headers w;
     w_bodies := <[l := b]> (w_bodies w);
     w_queries := w_queries w;
     w_trace := w_trace w |}.

Definition with_event (ev : Event) (w : World) : World :=
  {| w_headers := w_headers w;
     w_bodies := w_bodies w;
     w_queries := w_queries w;
     w_trace := w_trace w ++ [ev] |}.

(** Contents of an object; a reference that was never allocated reads as
    the empty object. *)
Definition headers_at (w : World) (l : loc) : gmap string string :=
  default ∅ (w_headers w !! l).

Definition body_at (w : World) (l : loc) : gmap string JsValue :=
  default ∅ (w_bodies w !! l).

Definition query_at (w : World) (l : loc) : gmap string JsValue :=
  default ∅ (w_queries w !! l).

(** An object literal: a fresh object. *)
Definition allocHeaders (h : gmap string string) : Eff loc :=
  λ w, let l := fresh (dom (w_headers w)) in (Returned l, with_headers l h w).

Definition allocBody (b : gmap string JsValue) : Eff loc :=
  λ w, let l := fresh (dom (w_bodies w)) in (Returned l, with_body l b w).

Definition readHeaders (l : loc) : Eff (gmap string string) :=
  λ w, (Returned (headers_at w l), w).

Definition writeHeaders (l : loc) (h : gmap string string) : Eff unit :=
  λ w, (Returned tt, with_headers l h w).

(** [headers[k] = v] *)
Definition setHeader (l : loc) (k v : string) : Eff unit :=
  let! h := readHeaders l in writeHeaders l (<[k := v]> h).

Definition readBody (l : loc) : Eff (gmap string JsValue) :=
  λ w, (Returned (body_at w l), w).

Definition writeBody (l : loc) (b : gmap string JsValue) : Eff unit :=
  λ w, (Returned tt, with_body l b w).

(** What a helper reads when it is handed the body. *)
Definition body_data (w : World) (b : TRequestBody) : BodyData :=
  match b with
  | BodyRef l => DataObject (body_at w l)
  | BodyBuffer bytes => DataBuffer bytes
  end.

Definition readBodyData (b : TRequestBody) : Eff BodyData :=
  λ w, (Returned (body_data w b), w).


Definition emit (ev : Event) : Eff unit :=
  λ w, (Returned tt, with_event ev w).

(** The string held by a credential field known to be truthy. *)
Definition str (s : option string) : string := default "" s.

(** *** The rate-limit store

    [_rateLimits] holds the own properties of the object; under every key
    but ["__proto__"], line 27 stores one.  The keys [send] and [sendStream]
    bind are [rawUrl] values, the origin and pathname of a URL. *)

Definition saveRateLimit (self : ClientRequestMaker)
    (originalUrl : string) (rateLimit : TwitterRateLimit) : ClientRequestMaker :=
  {| _bearerToken := _bearerToken self;
     _consumerToken := _consumerToken self;
     _consumerSecret := _consumerSecret self;
     _accessToken := _accessToken self;
     _accessSecret := _accessSecret self;
     _basicToken := _basicToken self;
     _clientId := _clientId self;
     _clientSecret := _clientSecret self;
     _oauth := _oauth self;
     _rateLimits := <[originalUrl := rateLimit]> (_rateLimits self);
     _clientSettings := _clientSettings self |}.

(** Modelled from the spec: the read side of the rate-limit store is not
    part of the request maker; the spec's [get(endpointKey)] returns the
    last snapshot or "unknown", that is the property read
    [_rateLimits[endpointKey]]. *)
Definition getRateLimit (self : ClientRequestMaker) (endpointKey : string)
    : option TwitterRateLimit :=
  _rateLimits self !! endpointKey.

(** The executor calling the hook [rateLimitSaver] it was given. *)
Definition callRateLimitSaver (self : ClientRequestMaker)
    (saver : option string) (rateLimit : TwitterRateLimit) : ClientRequestMaker :=
  match saver with
  | Some key => saveRateLimit self key rateLimit
  | None => self
  end.

(** *** Token helpers *)

Definition buildOAuth (self : ClientRequestMaker) : Outcome OAuth1Helper :=
  if negb (truthy (_consumerSecret self)) || negb (truthy (_consumerToken self)) then
    Thrown "Invalid consumer tokens"
  else
    Returned {| consumerKeys := {| tok_key := str (_consumerToken self);
                                   tok_secret := str (_consumerSecret self) |} |}.

Definition getOAuthAccessTokens (self : ClientRequestMaker) : option OAuthTokens :=
  if negb (truthy (_accessSecret self)) || negb (truthy (_accessToken self)) then
    None
  else
    Some {| tok_key := str (_accessToken self); tok_secret := str (_accessSecret self) |}.

(** *** Request helpers *)

Definition writeAuthHeaders (self : ClientRequestMaker) (ent : Entropy)
    (headers : loc) (bodyInSignature : bool) (url : URL) (method : string)
    (query : gmap string string) (body : TRequestBody) : Eff loc :=
  let! h0 := readHeaders headers in
  let! headers := allocHeaders h0 in
  if truthy (_bearerToken self) then
    let! _ := setHeader headers "Authorization" ("Bearer " ++ str (_bearerToken self)) in
    ret headers
  else if truthy (_basicToken self) then
    let! _ := setHeader headers "Authorization" ("Basic " ++ str (_basicToken self)) in
    ret headers
  else if truthy (_clientId self) && truthy (_clientSecret self) then
    let! _ := setHeader headers "Authorization"
                ("Basic " ++ getAuthHeader (str (_clientId self)) (str (_clientSecret self))) in
    ret headers
  else
    match truthy (_consumerSecret self), _oauth self with
    | true, Some oauth =>
        let! data :=
          (if bodyInSignature then
             let! b := readBodyData body in ret (mergeQueryAndBodyForOAuth query b)
           else ret (query_data query)) in
        let request := {| oa_url := url_toString url; oa_method := method; oa_data := data |} in
        let tokens := getOAuthAccessTokens self in
        let! _ := emit (EvAuthorize oauth request tokens) in
        let auth := authorize oauth ent request tokens in
        let! h1 := readHeaders headers in
        allocHeaders (toHeader oauth auth ∪ h1)
    | _, _ => ret headers
    end.

(** The steps of [getHttpRequestArgs] that touch the store. *)

(** [body: rawBody = {}] *)
Definition bodyOrDefault (body : option TRequestBody) : Eff TRequestBody :=
  match body with
  | Some b => ret b
  | None => let! l := allocBody ∅ in ret (BodyRef l)
  end.

(** [headers = headers ?? {}] *)
Definition headersOrDefault (headers : option loc) : Eff loc :=
  match headers with
  | Some l => ret l
  | None => allocHeaders ∅
  end.

(** Lines 165-168: add the user agent header. *)
Definition addUserAgent (headers : loc) : Eff unit :=
  let! h := readHeaders headers in
  if truthy (h !! "x-user-agent") then ret tt
  else setHeader headers "x-user-agent" "Node.twitter-api-v2".

(** [query: rawQuery = {}], as read by [formatQueryToString]. *)
Definition query_or_empty (w : World) (query : option loc) : gmap string JsValue :=
  match query with
  | Some l => query_at w l
  | None => ∅
  end.

Definition queryOrDefault (query : option loc) : Eff (gmap string JsValue) :=
  λ w, (Returned (query_or_empty w query), w).

(** Lines 189-192: delete undefined parameters. *)
Definition trimBody (rawBody : TRequestBody) : Eff unit :=
  match rawBody with
  | BodyRef l => let! b := readBody l in writeBody l (trimUndefinedProperties b)
  | BodyBuffer _ => ret tt
  end.

(** Line 206: [constructBodyParams(rawBody, headers, bodyType) || undefined];
    the helper may write to [headers] and may throw. *)
Definition encodeBody (rawBody : TRequestBody) (headers : loc) (bodyType : string)
    : Eff (option BodyPayload) :=
  let! b := readBodyData rawBody in
  let! h := readHeaders headers in
  let! _ := writeHeaders headers (constructBodyParams b h bodyType).2 in
  match (constructBodyParams b h bodyType).1 with
  | Returned p => ret (or_undefined p)
  | Thrown e => throw e
  end.

(** Lines 180-183: apply URL parameters. *)
Definition applyParams (params : option (gmap string string)) (urlObject : URL) : URL :=
  match params with
  | Some params => applyRequestParametersToUrl urlObject params
  | None => urlObject
  end.

(** Line 195: [forceBodyMode ?? autoDetectBodyType(urlObject)]. *)
Definition bodyTypeOf (forceBodyMode : option string) (urlObject : URL) : string :=
  match forceBodyMode with
  | Some mode => mode
  | None => autoDetectBodyType urlObject
  end.

Definition getHttpRequestArgs (self : ClientRequestMaker) (ent : Entropy)
    (args : IGetHttpRequestArgs) : Eff RequestDescriptor :=
  let! rawBody := bodyOrDefault (a_body args) in
  let method := toUpperCase (a_method args) in
  let! headers := headersOrDefault (a_headers args) in
  (* Add user agent header *)
  let! _ := addUserAgent headers in
  (* Add protocol to URL if needed *)
  let url := addProtocol (a_url args) in
  (* Convert URL to object that will receive all URL modifications *)
  match newURL url with
  | None => throw "Invalid URL"
  | Some urlObject =>
      (* URL without query string to save as endpoint name *)
      let rawUrl := url_origin urlObject ++ url_pathname urlObject in
      (* Apply URL parameters *)
      let urlObject := applyParams (a_params args) urlObject in
      (* Build an URL without anything in QS, and QSP in query *)
      let! rawQuery := queryOrDefault (a_query args) in
      let moved := moveUrlQueryParamsIntoObject urlObject (formatQueryToString rawQuery) in
      let urlObject := moved.1 in
      let query := moved.2 in
      (* Delete undefined parameters *)
      let! _ := trimBody rawBody in
      (* OAuth signature should not include parameters when using multipart. *)
      let bodyType := bodyTypeOf (a_forceBodyMode args) urlObject in
      (* If undefined or true, enable auth by headers *)
      let! headers :=
        (if not_false (a_enableAuth args) then
           (* OAuth needs body signature only if body is URL encoded. *)
           let bodyInSignature := is_body_method method && bool_decide (bodyType = "url") in
           writeAuthHeaders self ent headers bodyInSignature urlObject method query rawBody
         else ret headers) in
      let! body :=
        (if is_body_method method then encodeBody rawBody headers bodyType
         else ret None) in
      let urlObject := addQueryParamsToUrl urlObject query in
      ret {| rawUrl := rawUrl;
             d_url := urlObject;
             d_method := method;
             d_headers := headers;
             d_body := body |}
  end.

(** *** Entry points *)

(** [send] returns the promise of [makeRequest()]; it is represented by
    the request handed to [RequestHandlerHelper].  Constructing the executor
    and calling it are taken to return; what the executor does with the
    request is outside this class. *)
Definition send (self : ClientRequestMaker) (ent : Entropy)
    (requestParams : IGetHttpRequestArgs) : Eff TRequestFullData :=
  let! args := getHttpRequestArgs self ent requestParams in
  let options :=
    {| o_method := d_method args;
       o_headers := d_headers args;
       o_timeout := a_timeout requestParams;
       o_agent := httpAgent (_clientSettings self) |} in
  let enableRateLimitSave := not_false (a_enableRateLimitSave requestParams) in
  let! _ :=
    match d_body args with
    | Some payload =>
        if payload_truthy (d_body args) then
          let! h := readHeaders (o_headers options) in
          writeHeaders (o_headers options) (setBodyLengthHeader h payload)
        else ret tt
    | None => ret tt
    end in
  let isCompressionDisabled :=
    or_truthy (a_disableCompression requestParams)
              (cs_disableCompression (_clientSettings self)) in
  let data :=
    {| r_url := d_url args;
       r_options := options;
       r_body := d_body args;
       r_rateLimitSaver := if enableRateLimitSave then Some (rawUrl args) else None;
       r_requestEventDebugHandler := a_requestEventDebugHandler requestParams;
       r_payloadIsError := None;
       r_compression := negb isCompressionDisabled |} in
  let! _ := emit (EvMakeRequest data) in
  ret data.

(** What [sendStream] hands back: the stream itself, or the promise
    returned by [stream.connect()]. *)
Inductive StreamResult :=
  | StreamHandle (s : TweetStream)
  | ConnectPromise (s : TweetStream).

Definition sendStream (self : ClientRequestMaker) (ent : Entropy)
    (requestParams : IGetHttpRequestArgs) : Eff StreamResult :=
  let! args := getHttpRequestArgs self ent requestParams in
  let options :=
    {| o_method := d_method args;
       o_headers := d_headers args;
       o_timeout := None;
       o_agent := httpAgent (_clientSettings self) |} in
  let enableRateLimitSave := not_false (a_enableRateLimitSave requestParams) in
  let enableAutoConnect := not_false (a_autoConnect requestParams) in
  let! _ :=
    match d_body args with
    | Some payload =>
        if payload_truthy (d_body args) then
          let! h := readHeaders (o_headers options) in
          writeHeaders (o_headers options) (setBodyLengthHeader h payload)
        else ret tt
    | None => ret tt
    end in
  let isCompressionDisabled :=
    or_truthy (a_disableCompression requestParams)
              (cs_disableCompression (_clientSettings self)) in
  let requestData :=
    {| r_url := d_url args;
       r_options := options;
       r_body := d_body args;
       r_rateLimitSaver := if enableRateLimitSave then Some (rawUrl args) else None;
       r_requestEventDebugHandler := None;
       r_payloadIsError := a_payloadIsError requestParams;
       r_compression := negb isCompressionDisabled |} in
  let! _ := emit (EvNewStream requestData) in
  let stream := {| ts_requestData := requestData |} in
  if negb enableAutoConnect then
    ret (StreamHandle stream)
  else
    let! _ := emit (EvConnect stream) in
    ret (ConnectPromise stream).

(** The body as the signer and the encoder read it: the caller's body (or
    the default [{}]) once line 191 has trimmed it. *)
Definition trimmed_body (w : World) (body : option TRequestBody) : BodyData :=
  match body with
  | Some (BodyRef l) => DataObject (trimUndefinedProperties (body_at w l))
  | Some (BodyBuffer bytes) => DataBuffer bytes
  | None => DataObject ∅
  end.

(** The store after the length header is written (lines 41-43 and 78-80). *)
Definition with_length (d : RequestDescriptor) (w : World) : World :=
  match d_body d with
  | Some payload =>
      if payload_truthy (d_body d) then
        with_headers (d_headers d)
          (setBodyLengthHeader (headers_at w (d_headers d)) payload) w
      else w
  | None => w
  end.

(** The changes a call may make to the objects of a caller that passes
    distinct objects as query, headers and body: none to the query; in the
    headers, the user agent is filled in when it is absent or empty and, when
    the call disables auth, the content headers may be written; in the body,
    keys whose value is [undefined] may be removed. *)
Definition only_declared_changes (args : IGetHttpRequestArgs) (w w' : World) : Prop :=
  w_queries w' = w_queries w
  ∧ (∀ l, a_headers args = Some l →
       (∀ k, k ≠ "x-user-agent" → k ≠ "content-type" → k ≠ "content-length" →
             headers_at w' l !! k = headers_at w l !! k)
       ∧ (a_enableAuth args ≠ Some false →
          ∀ k, k ≠ "x-user-agent" → headers_at w' l !! k = headers_at w l !! k)
       ∧ headers_at w' l !! "x-user-agent" =
           (if truthy (headers_at w l !! "x-user-agent")
            then headers_at w l !! "x-user-agent"
            else Some "Node.twitter-api-v2"))
  ∧ (∀ l k, a_body args = Some (BodyRef l) →
       body_at w' l !! k = body_at w l !! k
       ∨ (body_at w l !! k = Some JUndefined ∧ body_at w' l !! k = None)).

End RequestMaker.

Arguments ClientRequestMaker {_}.
Arguments IGetHttpRequestArgs {_}.

(** ** The contract of the helpers

    What the spec (section 4.1) states about the helpers whose code is in
    another module: the body encoder computes its result from the body and
    the encoding only and writes nothing but the content headers; the
    signature merge is the union of query and body in which the body wins;
    the length helper writes the length header only. *)
Class ParamHelpersSpec `{PH : ParamHelpers} : Prop := {
  constructBodyParams_result b h h' mode :
    (constructBodyParams b h mode).1 = (constructBodyParams b h' mode).1;
  constructBodyParams_headers b h mode k :
    k ≠ "content-type" → k ≠ "content-length" →
    (constructBodyParams b h mode).2 !! k = h !! k;
  mergeQueryAndBodyForOAuth_lookup q m k :
    mergeQueryAndBodyForOAuth q (DataObject m) !! k =
      match m !! k with
      | Some v => Some v
      | None => JStr <$> q !! k
      end;
  setBodyLengthHeader_headers h p k :
    k ≠ "content-length" → setBodyLengthHeader h p !! k = h !! k;
}.

(** What the spec (sections 4.2 and 6) states about the OAuth1 signer: the
    header it emits is the [Authorization] line and nothing else. *)
Class OAuthApiSpec `{OA : OAuthApi} : Prop := {
  toHeader_keys o auth k : k ≠ "Authorization" → toHeader o auth !! k = None;
}.

(** ** The words of the specification

    "A URL string carries a scheme", read as in RFC 3986: a letter, then
    letters, digits, [+], [-] or [.], then a colon. *)
Definition is_alpha (a : ascii) : bool :=
  let n := nat_of_ascii a in
  ((65 <=? n) && (n <=? 90) || (97 <=? n) && (n <=? 122))%nat.

Definition is_scheme_char (a : ascii) : bool :=
  let n := nat_of_ascii a in
  is_alpha a || ((48 <=? n) && (n <=? 57))%nat
  || Ascii.eqb a "+" || Ascii.eqb a "-" || Ascii.eqb a ".".

Fixpoint scheme_then_colon (s : string) : bool :=
  match s with
  | "" => false
  | String a rest =>
      if Ascii.eqb a ":" then true else is_scheme_char a && scheme_then_colon rest
  end.

Definition carries_scheme (url : string) : bool :=
  match url with
  | "" => false
  | String a rest => is_alpha a && scheme_then_colon rest
  end.

(** ** A sample platform

    A small executable instance of the external collaborators, on which the
    embedding can be run.  URLs are of the form
    [http(s)://host/path?k=v&k=v]; the signer does not compute an HMAC but
    records what it was asked to sign. *)
Module Sample.

Fixpoint split_on (c : Ascii.ascii) (s : string) : list string :=
  match s with
  | "" => [""]
  | String a rest =>
      if Ascii.eqb a c then "" :: split_on c rest
      else match split_on c rest with
           | x :: xs => String a x :: xs
           | [] => [String a ""]
           end
  end.

(** The part before the first [c], and the part after it when there is
    one. *)
Fixpoint cut_at (c : Ascii.ascii) (s : string) : string * option string :=
  match s with
  | "" => ("", None)
  | String a rest =>
      if Ascii.eqb a c then ("", Some rest)
      else let '(x, y) := cut_at c rest in (String a x, y)
  end.

Definition upper_ascii (a : Ascii.ascii) : Ascii.ascii :=
  let n := Ascii.nat_of_ascii a in
  if (97 <=? n)%nat && (n <=? 122)%nat then Ascii.ascii_of_nat (n - 32) else a.

Fixpoint upper (s : string) : string :=
  match s with
  | "" => ""
  | String a rest => String (upper_ascii a) (upper rest)
  end.

Record SUrl := {
  su_origin : string;
  su_pathname : string;
  su_search : list (string * string);
}.

Definition parse_pair (kv : string) : string * string :=
  let '(k, v) := cut_at "="%char kv in (k, default "" v).

Definition parse_search (qs : string) : list (string * string) :=
  if bool_decide (qs = "") then [] else parse_pair <$> split_on "&"%char qs.

Definition parse_after_scheme (scheme rest : string) : option SUrl :=
  let '(before, qs) := cut_at "?"%char rest in
  let '(host, path) := cut_at "/"%char before in
  if bool_decide (host = "") then None
  else Some {| su_origin := scheme ++ host;
               su_pathname := "/" ++ default "" path;
               su_search := parse_search (default "" qs) |}.

Definition parse (s : string) : option SUrl :=
  if String.prefix "https://" s then
    parse_after_scheme "https://" (String.substring 8 (String.length s - 8) s)
  else if String.prefix "http://" s then
    parse_after_scheme "http://" (String.substring 7 (String.length s - 7) s)
  else None.

Definition show_search (qs : list (string * string)) : string :=
  match qs with
  | [] => ""
  | _ => "?" ++ String.concat "&" ((λ kv, kv.1 ++ "=" ++ kv.2) <$> qs)
  end.

Definition show (u : SUrl) : string :=
  su_origin u ++ su_pathname u ++ show_search (su_search u).

#[export] Instance platform : Platform := {|
  URL := SUrl;
  newURL := parse;
  url_origin := su_origin;
  url_pathname := su_pathname;
  url_toString := show;
  toUpperCase := upper;
  HttpAgent := unit;
  DebugHandler := unit;
  PayloadPredicate := unit;
|}.

Definition scalar (v : JsValue) : option string :=
  match v with
  | JStr s => Some s
  | JNum n => Some (pretty n)
  | JBool true => Some "true"
  | JBool false => Some "false"
  | _ => None
  end.

Definition format_value (v : JsValue) : option string :=
  match v with
  | JArr items => Some (String.concat "," (omap scalar items))
  | _ => scalar v
  end.

Definition substitute (params : gmap string string) (segment : string) : string :=
  match segment with
  | String ":"%char name => default segment (params !! name)
  | _ => segment
  end.

Definition encode_form (m : gmap string JsValue) : string :=
  String.concat "&"
    ((λ kv, kv.1 ++ "=" ++ default "" (format_value kv.2)) <$> map_to_list m).

#[export] Instance helpers : ParamHelpers := {|
  applyRequestParametersToUrl u params :=
    {| su_origin := su_origin u;
       su_pathname := String.concat "/" (substitute params <$> split_on "/"%char (su_pathname u));
       su_search := su_search u |};
  formatQueryToString q := omap format_value q;
  moveUrlQueryParamsIntoObject u q :=
    ({| su_origin := su_origin u; su_pathname := su_pathname u; su_search := [] |},
     foldl (λ acc kv, <[kv.1 := kv.2]> acc) q (su_search u));
  autoDetectBodyType u :=
    if String.prefix "/2/" (su_pathname u) then "json" else "url";
  mergeQueryAndBodyForOAuth q b :=
    match b with
    | DataObject m => m ∪ query_data q
    | DataBuffer _ => query_data q
    end;
  constructBodyParams b h mode :=
    match b with
    | DataBuffer bytes => (Returned (Some (PayloadBuffer bytes)), h)
    | DataObject m =>
        if bool_decide (mode = "url") then
          (Returned (Some (PayloadString (encode_form m))),
           <["content-type" := "application/x-www-form-urlencoded;charset=UTF-8"]> h)
        else if bool_decide (mode = "raw") then
          (Thrown "You can only use raw body mode with Buffers", h)
        else
          (Returned (Some (PayloadString ("{" ++ encode_form m ++ "}"))),
           <["content-type" := "application/json;charset=UTF-8"]> h)
    end;
  addQueryParamsToUrl u q :=
    {| su_origin := su_origin u;
       su_pathname := su_pathname u;
       su_search := su_search u ++ map_to_list q |};
  setBodyLengthHeader h p :=
    <["content-length" :=
        pretty (match p with
                | PayloadString s => String.length s
                | PayloadBuffer bytes => length bytes
                end)]> h;
|}.

Record SAuthorization := {
  sa_consumer : OAuthTokens;
  sa_nonce : string;
  sa_timestamp : Z;
  sa_request : OAuthRequest;
  sa_tokens : option OAuthTokens;
}.

#[export] Instance oauth : OAuthApi := {|
  Entropy := string * Z;
  OAuthAuthorization := SAuthorization;
  authorize o ent request tokens :=
    {| sa_consumer := consumerKeys o;
       sa_nonce := ent.1;
       sa_timestamp := ent.2;
       sa_request := request;
       sa_tokens := tokens |};
  toHeader o auth :=
    {[ "Authorization" :=
         "OAuth oauth_consumer_key=" ++ tok_key (sa_consumer auth)
         ++ ", oauth_nonce=" ++ sa_nonce auth
         ++ ", oauth_timestamp=" ++ pretty (sa_timestamp auth) ]};
  getAuthHeader clientId clientSecret := clientId ++ ":" ++ clientSecret;
|}.

Definition noSettings : IClientSettings :=
  {| httpAgent := None; cs_disableCompression := None |}.

(** A client that holds no credential at all. *)
Definition anonymous : ClientRequestMaker :=
  {| _bearerToken := None; _consumerToken := None; _consumerSecret := None;
     _accessToken := None; _accessSecret := None; _basicToken := None;
     _clientId := None; _clientSecret := None; _oauth := None;
     _rateLimits := ∅; _clientSettings := noSettings |}.

(** A request with every option left out. *)
Definition request (method url : string) : IGetHttpRequestArgs :=
  {| a_url := url; a_method := method; a_query := None; a_body := None;
     a_headers := None; a_forceBodyMode := None; a_enableAuth := None;
     a_params := None; a_timeout := None; a_enableRateLimitSave := None;
     a_disableCompression := None; a_requestEventDebugHandler := None;
     a_payloadIsError := None; a_autoConnect := None |}.

Definition emptyWorld : World :=
  {| w_headers := ∅; w_bodies := ∅; w_queries := ∅; w_trace := [] |}.

Definition entropy : Entropy := ("nonce", 0%Z).

Definition signer : OAuth1Helper :=
  {| consumerKeys := {| tok_key := "ck"; tok_secret := "cs" |} |}.

(** A client with OAuth1 user credentials only. *)
Definition oauthClient : ClientRequestMaker :=
  {| _bearerToken := None; _consumerToken := Some "ck"; _consumerSecret := Some "cs";
     _accessToken := Some "at"; _accessSecret := Some "as"; _basicToken := None;
     _clientId := None; _clientSecret := None; _oauth := Some signer;
     _rateLimits := ∅; _clientSettings := noSettings |}.

(** A client that holds every kind of credential. *)
Definition bearerClient : ClientRequestMaker :=
  {| _bearerToken := Some "TOK"; _consumerToken := Some "ck"; _consumerSecret := Some "cs";
     _accessToken := Some "at"; _accessSecret := Some "as"; _basicToken := Some "bt";
     _clientId := Some "id"; _clientSecret := Some "sec"; _oauth := Some signer;
     _rateLimits := ∅; _clientSettings := noSettings |}.



(** A store in which the caller holds a headers, a body and a query
    object, each at reference 1. *)
Definition callerWorld : World :=
  {| w_headers := {[ 1%positive := {[ "accept" := "*/*" ]} ]};
     w_bodies := {[ 1%positive := {[ "a" := JStr "1"; "b" := JUndefined ]} ]};
     w_queries := {[ 1%positive := {[ "q" := JNum 5 ]} ]};
     w_trace := [] |}.

(** A request that passes the three objects of [callerWorld]. *)
Definition withObjects (method url : string) : IGetHttpRequestArgs :=
  {| a_url := url; a_method := method; a_query := Some 1%positive;
     a_body := Some (BodyRef 1%positive); a_headers := Some 1%positive;
     a_forceBodyMode := None; a_enableAuth := None;
     a_params := None; a_timeout := None; a_enableRateLimitSave := None;
     a_disableCompression := None; a_requestEventDebugHandler := None;
     a_payloadIsError := None; a_autoConnect := None |}.

(** A request on a templated URL. *)
Definition userTweets (id : string) : IGetHttpRequestArgs :=
  {| a_url := "https://api.twitter.com/2/users/:id/tweets"; a_method := "GET";
     a_query := None; a_body := None; a_headers := None;
     a_forceBodyMode := None; a_enableAuth := None;
     a_params := Some {[ "id" := id ]}; a_timeout := None;
     a_enableRateLimitSave := None;
     a_disableCompression := None; a_requestEventDebugHandler := None;
     a_payloadIsError := None; a_autoConnect := None |}.

(** A request that passes the three objects of [callerWorld] and switches
    auth off. *)
Definition withoutAuth (method url : string) : IGetHttpRequestArgs :=
  {| a_url := url; a_method := method; a_query := Some 1%positive;
     a_body := Some (BodyRef 1%positive); a_headers := Some 1%positive;
     a_forceBodyMode := None; a_enableAuth := Some false;
     a_params := None; a_timeout := None; a_enableRateLimitSave := None;
     a_disableCompression := Some false; a_requestEventDebugHandler := None;
     a_payloadIsError := None; a_autoConnect := None |}.

(** A client that holds a basic token and OAuth1 credentials. *)
Definition basicClient : ClientRequestMaker :=
  {| _bearerToken := None; _consumerToken := Some "ck"; _consumerSecret := Some "cs";
     _accessToken := Some "at"; _accessSecret := None; _basicToken := Some "bt";
     _clientId := None; _clientSecret := None; _oauth := Some signer;
     _rateLimits := ∅; _clientSettings := noSettings |}.

(** A client with OAuth1 consumer credentials and half an access pair. *)
Definition appOnlyClient : ClientRequestMaker :=
  {| _bearerToken := None; _consumerToken := Some "ck"; _consumerSecret := Some "cs";
     _accessToken := Some "at"; _accessSecret := None; _basicToken := None;
     _clientId := None; _clientSecret := None; _oauth := Some signer;
     _rateLimits := ∅;
     _clientSettings := {| httpAgent := None; cs_disableCompression := Some true |} |}.

(** A streaming request. *)
Definition sampleStream (autoConnect : option bool) : IGetHttpRequestArgs :=
  {| a_url := "https://api.twitter.com/2/tweets/sample/stream"; a_method := "GET";
     a_query := None; a_body := None; a_headers := None;
     a_forceBodyMode := None; a_enableAuth := None;
     a_params := None; a_timeout := None; a_enableRateLimitSave := None;
     a_disableCompression := None; a_requestEventDebugHandler := None;
     a_payloadIsError := None; a_autoConnect := autoConnect |}.

End Sample.

Section Properties.
Context `{PH : ParamHelpers} `{OA : OAuthApi}.
Implicit Types (w : World) (self : ClientRequestMaker) (args : IGetHttpRequestArgs).
Implicit Types (l hl : loc) (rb : TRequestBody).

Lemma bind_run {A B} (m : Eff A) (k : A → Eff B) w a w1 :
  m w = (Returned a, w1) → bind m k w = k a w1.
Proof. unfold bind. by intros ->. Qed.

Lemma headers_at_with_headers w l l' h :
  headers_at (with_headers l h w) l' = if decide (l = l') then h else headers_at w l'.
Proof. unfold headers_at; simpl. rewrite lookup_insert. by case_decide. Qed.

Lemma body_at_with_body w l l' b :
  body_at (with_body l b w) l' = if decide (l = l') then b else body_at w l'.
Proof. unfold body_at; simpl. rewrite lookup_insert. by case_decide. Qed.

Lemma headers_at_unallocated w l : l ∉ dom (w_headers w) → headers_at w l = ∅.
Proof. intros Hl. unfold headers_at. by rewrite (not_elem_of_dom_1 _ _ Hl). Qed.

Lemma body_at_unallocated w l : l ∉ dom (w_bodies w) → body_at w l = ∅.
Proof. intros Hl. unfold body_at. by rewrite (not_elem_of_dom_1 _ _ Hl). Qed.

Lemma bodyOrDefault_run b w :
  ∃ rb w1, bodyOrDefault b w = (Returned rb, w1)
    ∧ w_headers w1 = w_headers w ∧ w_queries w1 = w_queries w ∧ w_trace w1 = w_trace w
    ∧ (∀ l, body_at w1 l = body_at w l)
    ∧ match b with Some b' => rb = b' | None => body_data w1 rb = DataObject ∅ end.
Proof.
  destruct b as [b'|]; simpl.
  - by exists b', w.
  - eexists _, _. unfold bind, allocBody, ret. split; [reflexivity|]. simpl.
    repeat split; try done.
    + intros l. rewrite body_at_with_body. case_decide as Hl; [|done].
      subst l. symmetry. apply body_at_unallocated, is_fresh.
    + by rewrite body_at_with_body, decide_True.
Qed.

Lemma headersOrDefault_run h w :
  ∃ hl w1, headersOrDefault h w = (Returned hl, w1)
    ∧ w_bodies w1 = w_bodies w ∧ w_queries w1 = w_queries w ∧ w_trace w1 = w_trace w
    ∧ (∀ l, headers_at w1 l = headers_at w l)
    ∧ dom (w_headers w) ⊆ dom (w_headers w1)
    ∧ match h with Some l => hl = l | None => hl ∉ dom (w_headers w) end.
Proof.
  destruct h as [l|]; simpl.
  - by exists l, w.
  - eexists _, _. unfold allocHeaders. split; [reflexivity|]. simpl.
    repeat split; try done.
    + intros l. rewrite headers_at_with_headers. case_decide as Hl; [|done].
      subst l. symmetry. apply headers_at_unallocated, is_fresh.
    + set_solver.
    + apply is_fresh.
Qed.

Lemma addUserAgent_run hl w :
  ∃ w1, addUserAgent hl w = (Returned tt, w1)
    ∧ w_bodies w1 = w_bodies w ∧ w_queries w1 = w_queries w ∧ w_trace w1 = w_trace w
    ∧ (∀ l, l ≠ hl → headers_at w1 l = headers_at w l)
    ∧ headers_at w1 hl =
        (if truthy (headers_at w hl !! "x-user-agent") then headers_at w hl
         else <["x-user-agent" := "Node.twitter-api-v2"]> (headers_at w hl))
    ∧ dom (w_headers w) ⊆ dom (w_headers w1)
    ∧ hl ∈ dom (w_headers w1).
Proof.
  unfold addUserAgent, bind, readHeaders.
  destruct (truthy (headers_at w hl !! "x-user-agent")) eqn:Hua; simpl.
  - exists w. repeat split; try done.
    destruct (decide (hl ∈ dom (w_headers w))) as [|Hn]; [done|].
    rewrite (headers_at_unallocated _ _ Hn), lookup_empty in Hua. discriminate.
  - eexists. split; [reflexivity|]. simpl. repeat split; try done.
    + intros l Hl. rewrite headers_at_with_headers. by rewrite decide_False.
    + by rewrite headers_at_with_headers, decide_True.
    + set_solver.
    + set_solver.
Qed.

Lemma trimBody_run rb w :
  ∃ w1, trimBody rb w = (Returned tt, w1)
    ∧ w_headers w1 = w_headers w ∧ w_queries w1 = w_queries w ∧ w_trace w1 = w_trace w
    ∧ match rb with
      | BodyRef l =>
          body_at w1 l = trimUndefinedProperties (body_at w l)
          ∧ ∀ l', l' ≠ l → body_at w1 l' = body_at w l'
      | BodyBuffer _ => w_bodies w1 = w_bodies w
      end.
Proof.
  destruct rb as [l|bytes]; simpl.
  - eexists. unfold bind, readBody, writeBody. split; [reflexivity|]. simpl.
    repeat split; try done.
    + by rewrite body_at_with_body, decide_True.
    + intros l' Hl. by rewrite body_at_with_body, decide_False.
  - by exists w.
Qed.

Lemma encodeBody_run rb hl bodyType w :
  encodeBody rb hl bodyType w =
    (match (constructBodyParams (body_data w rb) (headers_at w hl) bodyType).1 with
     | Returned p => Returned (or_undefined p)
     | Thrown e => Thrown e
     end,
     with_headers hl (constructBodyParams (body_data w rb) (headers_at w hl) bodyType).2 w).
Proof.
  unfold encodeBody, bind, readBodyData, readHeaders, writeHeaders, ret, throw.
  by destruct (constructBodyParams _ _ _).1.
Qed.

Lemma headers_at_with_headers_ne w l l' h :
  l ≠ l' → headers_at (with_headers l h w) l' = headers_at w l'.
Proof. intros Hl. rewrite headers_at_with_headers. by rewrite decide_False. Qed.

Lemma headers_at_with_headers_eq w l h : headers_at (with_headers l h w) l = h.
Proof. rewrite headers_at_with_headers. by rewrite decide_True. Qed.

Lemma headers_at_with_event w ev l : headers_at (with_event ev w) l = headers_at w l.
Proof. reflexivity. Qed.

Lemma headers_at_with_body w l' b l : headers_at (with_body l' b w) l = headers_at w l.
Proof. reflexivity. Qed.

Lemma body_data_with_headers w l h rb : body_data (with_headers l h w) rb = body_data w rb.
Proof. by destruct rb. Qed.

Lemma body_data_with_event w ev rb : body_data (with_event ev w) rb = body_data w rb.
Proof. by destruct rb. Qed.

(** [writeAuthHeaders] always returns, with a fresh object; it leaves the
    bodies, the queries and every header object that existed alone. *)
Lemma writeAuthHeaders_run self ent hl sig url method query rb w :
  ∃ hl' w1, writeAuthHeaders self ent hl sig url method query rb w = (Returned hl', w1)
    ∧ w_bodies w1 = w_bodies w ∧ w_queries w1 = w_queries w
    ∧ (hl' ∉ dom (w_headers w))
    ∧ (hl' ∈ dom (w_headers w1))
    ∧ (∀ l, l ∈ dom (w_headers w) → headers_at w1 l = headers_at w l)
    ∧ dom (w_headers w) ⊆ dom (w_headers w1)
    ∧ (∃ evs, w_trace w1 = (w_trace w ++ evs)%list
              ∧ ∀ ev, ev ∈ evs → ∃ o req tokens, ev = EvAuthorize o req tokens).
Proof.
  unfold writeAuthHeaders, bind, readHeaders, allocHeaders, setHeader, writeHeaders, ret,
    readBodyData, emit.
  set (l1 := fresh (dom (w_headers w))).
  assert (Hl1 : l1 ∉ dom (w_headers w)) by apply is_fresh.
  assert (Hother : ∀ l, l ∈ dom (w_headers w) → l1 ≠ l) by (intros l Hl ->; done).
  destruct (truthy (_bearerToken self)); simpl;
    [|destruct (truthy (_basicToken self)); simpl;
      [|destruct (truthy (_clientId self) && truthy (_clientSecret self)); simpl;
        [|destruct (truthy (_consumerSecret self)), (_oauth self) as [o|]; simpl]]].
  4: destruct sig; simpl.
  all: eexists _, _; (split; [reflexivity|]); simpl.
  all: try set (l2 := fresh (dom (<[l1 := _]> _))).
  all: try assert (Hl2 : l2 ∉ dom (w_headers w)) by
    (intros Hin; apply (is_fresh (dom (<[l1 := headers_at w hl]> (w_headers w)))); fold l2; set_solver).
  all: repeat split; try done.
  all: try (intros l Hl;
            repeat first
              [ rewrite headers_at_with_event
              | rewrite headers_at_with_headers_ne
                  by first [by apply Hother | by intros ->] ];
            done).
  all: try set_solver.
  1-3,6-8: by (exists []; rewrite app_nil_r; split; [done|]; intros ev Hev; inversion Hev).
  all: eexists [_]; split; [reflexivity|].
  all: intros ev ->%list_elem_of_singleton; eauto.
Qed.

Lemma writeAuthHeaders_bearer self ent hl sig url method query rb w hl' w1 :
  truthy (_bearerToken self) = true →
  writeAuthHeaders self ent hl sig url method query rb w = (Returned hl', w1) →
  headers_at w1 hl' =
    <["Authorization" := "Bearer " ++ str (_bearerToken self)]> (headers_at w hl)
  ∧ w_trace w1 = w_trace w.
Proof.
  unfold writeAuthHeaders, bind, readHeaders, allocHeaders, setHeader, writeHeaders, ret.
  intros -> [= <- <-]. simpl.
  by rewrite !headers_at_with_headers_eq.
Qed.

Lemma writeAuthHeaders_oauth1 self ent hl sig url method query rb w hl' w1 oauth :
  truthy (_bearerToken self) = false →
  truthy (_basicToken self) = false →
  truthy (_clientId self) && truthy (_clientSecret self) = false →
  truthy (_consumerSecret self) = true →
  _oauth self = Some oauth →
  writeAuthHeaders self ent hl sig url method query rb w = (Returned hl', w1) →
  let request :=
    {| oa_url := url_toString url;
       oa_method := method;
       oa_data := if sig then mergeQueryAndBodyForOAuth query (body_data w rb)
                  else query_data query |} in
  w_trace w1 = (w_trace w ++ [EvAuthorize oauth request (getOAuthAccessTokens self)])%list
  ∧ headers_at w1 hl' =
      toHeader oauth (authorize oauth ent request (getOAuthAccessTokens self))
      ∪ headers_at w hl.
Proof.
  unfold writeAuthHeaders, bind, readHeaders, allocHeaders, setHeader, writeHeaders, ret,
    readBodyData, emit.
  intros -> -> -> -> ->. destruct sig; simpl; intros [= <- <-]; simpl.
  all: rewrite ?body_data_with_headers.
  all: split; [done|].
  all: by rewrite headers_at_with_headers_eq, headers_at_with_event,
         headers_at_with_headers_eq.
Qed.

Lemma writeAuthHeaders_none self ent hl sig url method query rb w hl' w1 :
  truthy (_bearerToken self) = false →
  truthy (_basicToken self) = false →
  truthy (_clientId self) && truthy (_clientSecret self) = false →
  truthy (_consumerSecret self) = false ∨ _oauth self = None →
  writeAuthHeaders self ent hl sig url method query rb w = (Returned hl', w1) →
  headers_at w1 hl' = headers_at w hl ∧ w_trace w1 = w_trace w.
Proof.
  unfold writeAuthHeaders, bind, readHeaders, allocHeaders, ret.
  intros -> -> -> Hno.
  destruct (truthy (_consumerSecret self)), (_oauth self);
    try (destruct Hno; discriminate).
  all: intros [= <- <-]; simpl; by rewrite headers_at_with_headers_eq.
Qed.

(** [getHttpRequestArgs] as the sequence of its steps. *)
Lemma getHttpRequestArgs_run self ent args w :
  ∃ rb w1 hl w2 w3,
    bodyOrDefault (a_body args) w = (Returned rb, w1)
    ∧ headersOrDefault (a_headers args) w1 = (Returned hl, w2)
    ∧ addUserAgent hl w2 = (Returned tt, w3)
    ∧ match newURL (addProtocol (a_url args)) with
      | None => getHttpRequestArgs self ent args w = (Thrown "Invalid URL", w3)
      | Some u0 =>
          let moved :=
            moveUrlQueryParamsIntoObject (applyParams (a_params args) u0)
              (formatQueryToString (query_or_empty w3 (a_query args))) in
          let method := toUpperCase (a_method args) in
          let bodyType := bodyTypeOf (a_forceBodyMode args) moved.1 in
          let descriptor hl' body :=
            {| rawUrl := url_origin u0 ++ url_pathname u0;
               d_url := addQueryParamsToUrl moved.1 moved.2;
               d_method := method;
               d_headers := hl';
               d_body := body |} in
          ∃ w4 hl' w5,
            trimBody rb w3 = (Returned tt, w4)
            ∧ (if not_false (a_enableAuth args) then
                 writeAuthHeaders self ent hl
                   (is_body_method method && bool_decide (bodyType = "url"))
                   moved.1 method moved.2 rb
               else ret hl) w4 = (Returned hl', w5)
            ∧ getHttpRequestArgs self ent args w =
                if is_body_method method then
                  (match (constructBodyParams (body_data w5 rb) (headers_at w5 hl')
                            bodyType).1 with
                   | Returned p => Returned (descriptor hl' (or_undefined p))
                   | Thrown e => Thrown e
                   end,
                   with_headers hl'
                     (constructBodyParams (body_data w5 rb) (headers_at w5 hl')
                        bodyType).2 w5)
                else (Returned (descriptor hl' None), w5)
      end.
Proof.
  destruct (bodyOrDefault_run (a_body args) w) as (rb & w1 & E1 & _).
  destruct (headersOrDefault_run (a_headers args) w1) as (hl & w2 & E2 & _).
  destruct (addUserAgent_run hl w2) as (w3 & E3 & _).
  exists rb, w1, hl, w2, w3. do 3 (split; [done|]).
  unfold getHttpRequestArgs.
  rewrite (bind_run _ _ _ _ _ E1), (bind_run _ _ _ _ _ E2), (bind_run _ _ _ _ _ E3).
  destruct (newURL (addProtocol (a_url args))) as [u0|]; [|done].
  cbv zeta. unfold queryOrDefault. unfold bind at 1.
  set (moved := moveUrlQueryParamsIntoObject _ _).
  set (method := toUpperCase _).
  set (bodyType := bodyTypeOf _ _).
  destruct (trimBody_run rb w3) as (w4 & E4 & _).
  assert (∃ hl' w5,
    (if not_false (a_enableAuth args) then
       writeAuthHeaders self ent hl
         (is_body_method method && bool_decide (bodyType = "url"))
         moved.1 method moved.2 rb
     else ret hl) w4 = (Returned hl', w5)) as (hl' & w5 & E5).
  { destruct (not_false (a_enableAuth args)).
    - destruct (writeAuthHeaders_run self ent hl
        (is_body_method method && bool_decide (bodyType = "url"))
        moved.1 method moved.2 rb w4) as (hl' & w5 & E & _). eauto.
    - by exists hl, w4. }
  exists w4, hl', w5. do 2 (split; [done|]).
  rewrite (bind_run _ _ _ _ _ E4), (bind_run _ _ _ _ _ E5).
  destruct (is_body_method method).
  - unfold bind. rewrite encodeBody_run.
    by destruct (constructBodyParams _ _ _).1.
  - reflexivity.
Qed.

Lemma body_data_ext w w' rb : w_bodies w = w_bodies w' → body_data w rb = body_data w' rb.
Proof. intros Hb. destruct rb; [|done]. unfold body_data, body_at. by rewrite Hb. Qed.

Lemma query_or_empty_ext w w' q :
  w_queries w = w_queries w' → query_or_empty w q = query_or_empty w' q.
Proof. intros Hq. destruct q; [|done]. unfold query_or_empty, query_at. by rewrite Hq. Qed.

Lemma body_at_ext w w' l : w_bodies w = w_bodies w' → body_at w l = body_at w' l.
Proof. intros Hb. unfold body_at. by rewrite Hb. Qed.

Lemma headers_at_ext w w' l : w_headers w = w_headers w' → headers_at w l = headers_at w' l.
Proof. intros Hh. unfold headers_at. by rewrite Hh. Qed.

Lemma trimUndefinedProperties_lookup (m : gmap string JsValue) k :
  trimUndefinedProperties m !! k =
    match m !! k with
    | Some JUndefined => None
    | other => other
    end.
Proof.
  unfold trimUndefinedProperties.
  destruct (m !! k) as [v|] eqn:Hk.
  - destruct (is_undefined v) eqn:Hv.
    + destruct v; try discriminate. apply map_lookup_filter_None. right.
      intros v' Hv'. simpl. rewrite Hk in Hv'. by simplify_eq.
    + transitivity (Some v); [|by destruct v].
      apply map_lookup_filter_Some. by split.
  - apply map_lookup_filter_None. by left.
Qed.

Lemma trimUndefinedProperties_idemp (m : gmap string JsValue) :
  trimUndefinedProperties (trimUndefinedProperties m) = trimUndefinedProperties m.
Proof.
  apply map_eq. intros k. rewrite !trimUndefinedProperties_lookup.
  by destruct (m !! k) as [[]|].
Qed.

Lemma trimUndefinedProperties_empty : trimUndefinedProperties ∅ = ∅.
Proof. apply map_filter_empty. Qed.

(** The store after the steps that precede the parsing of the URL. *)
Lemma prelude_frame args w rb w1 hl w2 w3 :
  bodyOrDefault (a_body args) w = (Returned rb, w1) →
  headersOrDefault (a_headers args) w1 = (Returned hl, w2) →
  addUserAgent hl w2 = (Returned tt, w3) →
  w_queries w3 = w_queries w
  ∧ w_trace w3 = w_trace w
  ∧ (∀ l, body_at w3 l = body_at w l)
  ∧ match a_body args with
    | Some b => rb = b
    | None => ∃ l, rb = BodyRef l ∧ body_at w3 l = ∅
    end
  ∧ match a_headers args with
    | Some l => hl = l
    | None => hl ∉ dom (w_headers w)
    end
  ∧ hl ∈ dom (w_headers w3)
  ∧ dom (w_headers w) ⊆ dom (w_headers w3)
  ∧ (∀ l, l ≠ hl → headers_at w3 l = headers_at w l)
  ∧ headers_at w3 hl =
      (if truthy (headers_at w hl !! "x-user-agent") then headers_at w hl
       else <["x-user-agent" := "Node.twitter-api-v2"]> (headers_at w hl)).
Proof.
  intros E1 E2 E3.
  destruct (bodyOrDefault_run (a_body args) w)
    as (rb' & w1' & E1' & Hh1 & Hq1 & Ht1 & Hb1 & Hrb).
  rewrite E1 in E1'. injection E1' as <- <-.
  destruct (headersOrDefault_run (a_headers args) w1)
    as (hl0 & w2' & E2' & Hb2 & Hq2 & Ht2 & Hh2 & Hd2 & Hhl).
  rewrite E2 in E2'. injection E2' as <- <-.
  destruct (addUserAgent_run hl w2) as (w3' & E3' & Hb3 & Hq3 & Ht3 & Hh3 & Hua & Hd3 & Hin).
  rewrite E3 in E3'. injection E3' as <-.
  assert (Hbody : ∀ l, body_at w3 l = body_at w l).
  { intros l. rewrite <- Hb1. unfold body_at. by rewrite Hb3, Hb2. }
  repeat split.
  - congruence.
  - congruence.
  - done.
  - destruct (a_body args); [done|]. destruct rb as [l|]; [|done].
    exists l. split; [done|]. simpl in Hrb. simplify_eq.
    unfold body_at at 1. by rewrite Hb3, Hb2.
  - by rewrite Hh1 in Hhl.
  - done.
  - rewrite <- Hh1. set_solver.
  - intros l Hl. rewrite Hh3, Hh2 by done. unfold headers_at. by rewrite Hh1.
  - rewrite Hua, Hh2. unfold headers_at. by rewrite Hh1.
Qed.

(** The body read by the signer and by the encoder. *)
Lemma trimmed_body_read args w rb w3 w4 :
  (∀ l, body_at w3 l = body_at w l) →
  match a_body args with
  | Some b => rb = b
  | None => ∃ l, rb = BodyRef l ∧ body_at w3 l = ∅
  end →
  trimBody rb w3 = (Returned tt, w4) →
  body_data w4 rb = trimmed_body w (a_body args)
  ∧ w_headers w4 = w_headers w3 ∧ w_queries w4 = w_queries w3 ∧ w_trace w4 = w_trace w3.
Proof.
  intros Hb Hrb E4.
  destruct (trimBody_run rb w3) as (w4' & E4' & Hh & Hq & Ht & Hbody).
  rewrite E4 in E4'. injection E4' as <-. split; [|done].
  destruct (a_body args) as [b|].
  - subst rb. destruct b as [l|]; [|done]. simpl.
    destruct Hbody as [-> _]. by rewrite Hb.
  - destruct Hrb as (l & -> & Hl). simpl. destruct Hbody as [-> _].
    by rewrite Hl, trimUndefinedProperties_empty.
Qed.

(** The store after the authentication step. *)
Lemma auth_step_frame self ent args hl sig url method query rb w4 hl' w5 :
  (if not_false (a_enableAuth args) then
     writeAuthHeaders self ent hl sig url method query rb
   else ret hl) w4 = (Returned hl', w5) →
  w_bodies w5 = w_bodies w4
  ∧ w_queries w5 = w_queries w4
  ∧ (∀ l, l ∈ dom (w_headers w4) → l ≠ hl' → headers_at w5 l = headers_at w4 l)
  ∧ dom (w_headers w4) ⊆ dom (w_headers w5)
  ∧ (if not_false (a_enableAuth args)
     then hl' ∉ dom (w_headers w4) ∧ hl' ∈ dom (w_headers w5)
     else hl' = hl ∧ w5 = w4)
  ∧ (∃ evs, w_trace w5 = (w_trace w4 ++ evs)%list
            ∧ ∀ ev, ev ∈ evs → ∃ o req tokens, ev = EvAuthorize o req tokens).
Proof.
  destruct (not_false (a_enableAuth args)).
  - intros E.
    destruct (writeAuthHeaders_run self ent hl sig url method query rb w4)
      as (hl0 & w5' & E' & Hb & Hq & Hfresh & Hnew & Hh & Hd & Ht).
    rewrite E in E'. injection E' as <- <-. split_and!; try done. auto.
  - intros [= <- <-]. split_and!; try done.
    exists []. rewrite app_nil_r. split; [done|]. intros ev Hev. inversion Hev.
Qed.

(** C4. When the uppercased method is not POST, PUT or PATCH (GET, for
    one), the call returns whenever the URL parses, and the descriptor it
    returns has no body, whatever body mapping the caller supplied. *)
Theorem body_absent_without_body_method self ent args w :
  toUpperCase (a_method args) ∉ BODY_METHODS →
  match newURL (addProtocol (a_url args)) with
  | Some _ =>
      ∃ d w', getHttpRequestArgs self ent args w = (Returned d, w') ∧ d_body d = None
  | None => ∃ w', getHttpRequestArgs self ent args w = (Thrown "Invalid URL", w')
  end.
Proof.
  intros Hm.
  destruct (getHttpRequestArgs_run self ent args w) as (rb & w1 & hl & w2 & w3 & _ & _ & _ & Hrun).
  destruct (newURL (addProtocol (a_url args))) as [u0|]; [|eauto].
  destruct Hrun as (w4 & hl' & w5 & _ & _ & ->).
  unfold is_body_method. rewrite bool_decide_eq_false_2 by done. eauto.
Qed.

(** C10. [rawUrl] is the origin and the pathname of the URL as it is
    parsed, before path parameters are applied and before the query is
    formatted: two calls on the same URL template return the same [rawUrl],
    whatever their path-parameter values, query, body, method, options,
    credentials or store. *)
Theorem rawUrl_is_unparameterized self1 self2 ent1 ent2 args1 args2 w1 w2 d1 d2 w1' w2' :
  a_url args1 = a_url args2 →
  getHttpRequestArgs self1 ent1 args1 w1 = (Returned d1, w1') →
  getHttpRequestArgs self2 ent2 args2 w2 = (Returned d2, w2') →
  rawUrl d1 = rawUrl d2
  ∧ ∃ u, newURL (addProtocol (a_url args1)) = Some u
         ∧ rawUrl d1 = url_origin u ++ url_pathname u.
Proof.
  intros Hurl H1 H2.
  destruct (getHttpRequestArgs_run self1 ent1 args1 w1) as (? & ? & ? & ? & ? & _ & _ & _ & R1).
  destruct (getHttpRequestArgs_run self2 ent2 args2 w2) as (? & ? & ? & ? & ? & _ & _ & _ & R2).
  rewrite <- Hurl in R2.
  destruct (newURL (addProtocol (a_url args1))) as [u0|]; [|congruence].
  destruct R1 as (? & ? & ? & _ & _ & R1), R2 as (? & ? & ? & _ & _ & R2).
  rewrite H1 in R1. rewrite H2 in R2.
  assert (rawUrl d1 = url_origin u0 ++ url_pathname u0) as E1.
  { destruct (is_body_method _) in R1; [destruct (constructBodyParams _ _ _).1 in R1|];
      by simplify_eq. }
  assert (rawUrl d2 = url_origin u0 ++ url_pathname u0) as E2.
  { destruct (is_body_method _) in R2; [destruct (constructBodyParams _ _ _).1 in R2|];
      by simplify_eq. }
  split; [congruence|eauto].
Qed.

(** C2. When a bearer token is set (a non-empty string), the header
    mapping [writeAuthHeaders] produces, and with auth enabled the headers of
    the descriptor, have ["Bearer " ++ token] as their [Authorization] entry,
    whatever the other credentials are. *)
Theorem bearer_token_always_wins `{!ParamHelpersSpec} self ent args w token :
  _bearerToken self = Some token →
  token ≠ "" →
  (∀ hl sig url method query rb,
     ∃ hl' w1,
       writeAuthHeaders self ent hl sig url method query rb w = (Returned hl', w1)
       ∧ headers_at w1 hl' !! "Authorization" = Some ("Bearer " ++ token))
  ∧ (a_enableAuth args ≠ Some false →
     ∀ d w',
       getHttpRequestArgs self ent args w = (Returned d, w') →
       headers_at w' (d_headers d) !! "Authorization" = Some ("Bearer " ++ token)).
Proof.
  intros Htok Hne.
  assert (Hb : truthy (_bearerToken self) = true).
  { rewrite Htok. by destruct token. }
  assert (Hstr : str (_bearerToken self) = token) by by rewrite Htok.
  split.
  - intros hl sig url method query rb.
    destruct (writeAuthHeaders_run self ent hl sig url method query rb w)
      as (hl' & w1 & E & _).
    exists hl', w1. split; [done|].
    destruct (writeAuthHeaders_bearer _ _ _ _ _ _ _ _ _ _ _ Hb E) as [-> _].
    by rewrite lookup_insert_eq, Hstr.
  - intros Hauth d w' Hrun.
    assert (Hnf : not_false (a_enableAuth args) = true).
    { by destruct (a_enableAuth args) as [[]|]. }
    destruct (getHttpRequestArgs_run self ent args w)
      as (rb & w1 & hl & w2 & w3 & _ & _ & _ & R).
    destruct (newURL (addProtocol (a_url args))) as [u0|]; [|congruence].
    destruct R as (w4 & hl' & w5 & _ & E5 & R). rewrite Hnf in E5.
    destruct (writeAuthHeaders_bearer _ _ _ _ _ _ _ _ _ _ _ Hb E5) as [Hh _].
    assert (Hauth5 : headers_at w5 hl' !! "Authorization" = Some ("Bearer " ++ token)).
    { by rewrite Hh, lookup_insert_eq, Hstr. }
    rewrite Hrun in R.
    destruct (is_body_method _) in R.
    + destruct (constructBodyParams _ _ _).1 eqn:Hres in R; [|done].
      injection R as -> ->. simpl.
      rewrite headers_at_with_headers_eq.
      by rewrite constructBodyParams_headers.
    + by injection R as -> ->.
Qed.

(** C1. With auth enabled and credentials that hold no bearer token, no
    basic token and no OAuth2 client pair but an OAuth1 signer and a consumer
    secret, the call asks the signer for exactly one signature, over the
    uppercased method, the absolute URL and the signature data.  The data is
    the merge of query and body, the body winning on a shared key, when the
    method is POST, PUT or PATCH and the body type is ["url"]; it is the query
    alone in every other case.  The header lines the signer emits are in the
    descriptor's headers. *)
Theorem oauth1_signature_data `{!ParamHelpersSpec} self ent args w oauth u0 :
  truthy (_bearerToken self) = false →
  truthy (_basicToken self) = false →
  truthy (_clientId self) && truthy (_clientSecret self) = false →
  truthy (_consumerSecret self) = true →
  _oauth self = Some oauth →
  a_enableAuth args ≠ Some false →
  newURL (addProtocol (a_url args)) = Some u0 →
  let moved :=
    moveUrlQueryParamsIntoObject (applyParams (a_params args) u0)
      (formatQueryToString (query_or_empty w (a_query args))) in
  let method := toUpperCase (a_method args) in
  let bodyType := bodyTypeOf (a_forceBodyMode args) moved.1 in
  let body := trimmed_body w (a_body args) in
  let tokens := getOAuthAccessTokens self in
  ∃ request,
    w_trace (getHttpRequestArgs self ent args w).2
      = (w_trace w ++ [EvAuthorize oauth request tokens])%list
    ∧ oa_method request = method
    ∧ oa_url request = url_toString moved.1
    ∧ (method ∈ BODY_METHODS ∧ bodyType = "url" →
       oa_data request = mergeQueryAndBodyForOAuth moved.2 body
       ∧ ∀ m k, body = DataObject m →
           oa_data request !! k =
             match m !! k with
             | Some v => Some v
             | None => JStr <$> moved.2 !! k
             end)
    ∧ (¬ (method ∈ BODY_METHODS ∧ bodyType = "url") →
       oa_data request = query_data moved.2)
    ∧ (∀ d w',
         getHttpRequestArgs self ent args w = (Returned d, w') →
         ∀ k v,
           toHeader oauth (authorize oauth ent request tokens) !! k = Some v →
           k ≠ "content-type" → k ≠ "content-length" →
           headers_at w' (d_headers d) !! k = Some v).
Proof.
  intros Hbearer Hbasic Hclient Hsecret Hoauth Hauth Hurl moved method bodyType body tokens.
  assert (Hnf : not_false (a_enableAuth args) = true).
  { by destruct (a_enableAuth args) as [[]|]. }
  destruct (getHttpRequestArgs_run self ent args w)
    as (rb & w1 & hl & w2 & w3 & E1 & E2 & E3 & R).
  destruct (prelude_frame _ _ _ _ _ _ _ E1 E2 E3)
    as (Hq3 & Ht3 & Hb3 & Hrb & _).
  rewrite Hurl in R. cbv zeta in R.
  rewrite (query_or_empty_ext w3 w) in R by done.
  fold moved in R. fold method in R. fold bodyType in R.
  destruct R as (w4 & hl' & w5 & E4 & E5 & R). rewrite Hnf in E5.
  destruct (trimmed_body_read _ _ _ _ _ Hb3 Hrb E4) as (Hbody & _ & _ & Ht4).
  destruct (writeAuthHeaders_oauth1 _ _ _ _ _ _ _ _ _ _ _ _
              Hbearer Hbasic Hclient Hsecret Hoauth E5) as [Ht5 Hh5].
  rewrite Hbody in Ht5, Hh5. fold body tokens in Ht5, Hh5.
  exists {| oa_url := url_toString moved.1;
            oa_method := method;
            oa_data := if is_body_method method && bool_decide (bodyType = "url")
                       then mergeQueryAndBodyForOAuth moved.2 body
                       else query_data moved.2 |}.
  split; [|split; [reflexivity|split; [reflexivity|]]].
  { rewrite R. destruct (is_body_method method); simpl; by rewrite Ht5, Ht4, Ht3. }
  simpl. split; [|split].
  - intros [Hm Hbt]. unfold is_body_method.
    rewrite 2!bool_decide_eq_true_2 by done. simpl. split; [done|].
    intros m k ->. apply mergeQueryAndBodyForOAuth_lookup.
  - intros Hnot. unfold is_body_method.
    destruct (bool_decide (method ∈ BODY_METHODS)) eqn:Hm; [|done].
    destruct (bool_decide (bodyType = "url")) eqn:Hbt; [|done].
    apply bool_decide_eq_true in Hm, Hbt. tauto.
  - intros d w' Hrun k v Hk Hct Hcl. rewrite Hrun in R.
    assert (H5 : headers_at w5 hl' !! k = Some v).
    { rewrite Hh5. by apply lookup_union_Some_l. }
    destruct (is_body_method method) in R.
    + destruct (constructBodyParams _ _ _).1 in R; [|done].
      injection R as -> ->. simpl. rewrite headers_at_with_headers_eq.
      by rewrite constructBodyParams_headers.
    + by injection R as -> ->.
Qed.

(** What a call of [getHttpRequestArgs] does to the store. *)
Lemma getHttpRequestArgs_store `{!ParamHelpersSpec} self ent args w :
  let w' := (getHttpRequestArgs self ent args w).2 in
  w_queries w' = w_queries w
  ∧ (∀ l, a_body args = Some (BodyRef l) →
       body_at w' l =
         match newURL (addProtocol (a_url args)) with
         | Some _ => trimUndefinedProperties (body_at w l)
         | None => body_at w l
         end)
  ∧ (∀ l, a_body args ≠ Some (BodyRef l) → body_at w' l = body_at w l)
  ∧ (∀ l, a_headers args = Some l →
       (∀ k, k ≠ "x-user-agent" →
             not_false (a_enableAuth args) = true
             ∨ (k ≠ "content-type" ∧ k ≠ "content-length") →
             headers_at w' l !! k = headers_at w l !! k)
       ∧ headers_at w' l !! "x-user-agent" =
           (if truthy (headers_at w l !! "x-user-agent")
            then headers_at w l !! "x-user-agent"
            else Some "Node.twitter-api-v2"))
  ∧ (∀ l, l ∈ dom (w_headers w) → a_headers args ≠ Some l →
       headers_at w' l = headers_at w l)
  ∧ (∀ d, (getHttpRequestArgs self ent args w).1 = Returned d →
       d_headers d ∈ dom (w_headers w')
       ∧ (not_false (a_enableAuth args) = true →
          ∀ l, l ∈ dom (w_headers w) ∨ a_headers args = Some l → d_headers d ≠ l)
       ∧ (not_false (a_enableAuth args) = false →
          ∀ l, l ∈ dom (w_headers w) → a_headers args ≠ Some l → d_headers d ≠ l))
  ∧ (∃ evs, w_trace w' = (w_trace w ++ evs)%list
            ∧ ∀ ev, ev ∈ evs → ∃ o req tokens, ev = EvAuthorize o req tokens).
Proof.
  intros w'. subst w'.
  destruct (getHttpRequestArgs_run self ent args w)
    as (rb & w1 & hl & w2 & w3 & E1 & E2 & E3 & R).
  destruct (prelude_frame _ _ _ _ _ _ _ E1 E2 E3)
    as (Hq3 & Ht3 & Hb3 & Hrb & Hhl & Hin3 & Hd3 & Hh3 & Hua3).
  assert (Hcaller : ∀ l, a_headers args = Some l → l = hl).
  { intros l Hl. by rewrite Hl in Hhl. }
  assert (Hother : ∀ l, l ∈ dom (w_headers w) → a_headers args ≠ Some l → l ≠ hl).
  { intros l Hl Hne ->. destruct (a_headers args); [by subst|done]. }
  assert (Hua : ∀ l, l = hl →
    (∀ k, k ≠ "x-user-agent" → headers_at w3 l !! k = headers_at w l !! k)
    ∧ headers_at w3 l !! "x-user-agent" =
        (if truthy (headers_at w l !! "x-user-agent")
         then headers_at w l !! "x-user-agent"
         else Some "Node.twitter-api-v2")).
  { intros l ->. rewrite Hua3.
    destruct (truthy (headers_at w hl !! "x-user-agent")); [done|].
    split; [|by rewrite lookup_insert_eq].
    intros k Hk. by rewrite lookup_insert_ne. }
  destruct (newURL (addProtocol (a_url args))) as [u0|].
  2: { rewrite R. simpl. split_and!; try done.
       - intros l Hl. destruct (Hua l (Hcaller l Hl)) as [Hk1 Hk2].
         split; [|done]. intros k Hk _. by apply Hk1.
       - intros l Hl Hne. apply Hh3. by apply Hother.
       - exists []. rewrite app_nil_r. split; [done|]. intros ev Hev. inversion Hev. }
  cbv zeta in R. destruct R as (w4 & hl' & w5 & E4 & E5 & R).
  destruct (trimBody_run rb w3) as (w4' & E4' & Hh4 & Hq4 & Ht4 & Hb4).
  rewrite E4 in E4'. injection E4' as <-.
  destruct (auth_step_frame _ _ _ _ _ _ _ _ _ _ _ _ E5)
    as (Hb5 & Hq5 & Hh5 & Hd5 & Hhl' & evs & Ht5 & Hevs).
  set (final := (getHttpRequestArgs self ent args w).2).
  assert (Hfinal_b : w_bodies final = w_bodies w5).
  { subst final. rewrite R. by destruct (is_body_method _). }
  assert (Hfinal_q : w_queries final = w_queries w5).
  { subst final. rewrite R. by destruct (is_body_method _). }
  assert (Hfinal_t : w_trace final = w_trace w5).
  { subst final. rewrite R. by destruct (is_body_method _). }
  assert (Hfinal_h : ∀ l, l ≠ hl' → headers_at final l = headers_at w5 l).
  { intros l Hl. subst final. rewrite R. destruct (is_body_method _); [|done].
    simpl. by rewrite headers_at_with_headers_ne. }
  assert (Hfinal_k : ∀ k, k ≠ "content-type" → k ≠ "content-length" →
    headers_at final hl' !! k = headers_at w5 hl' !! k).
  { intros k Hct Hcl. subst final. rewrite R. destruct (is_body_method _); [|done].
    simpl. rewrite headers_at_with_headers_eq. by apply constructBodyParams_headers. }
  assert (Hfinal_d : dom (w_headers w5) ⊆ dom (w_headers final)).
  { subst final. rewrite R. destruct (is_body_method _); [|done]. simpl. set_solver. }
  assert (Hin4 : hl ∈ dom (w_headers w4)) by by rewrite Hh4.
  assert (Hhl'5 : hl' ∈ dom (w_headers final)).
  { apply Hfinal_d. destruct (not_false (a_enableAuth args)).
    - by destruct Hhl'.
    - by destruct Hhl' as [-> ->]. }
  assert (Hdesc : ∀ d, (getHttpRequestArgs self ent args w).1 = Returned d →
    d_headers d = hl').
  { intros d Hd. rewrite R in Hd. destruct (is_body_method _) in Hd; simpl in Hd.
    + destruct (constructBodyParams _ _ _).1 in Hd; by simplify_eq.
    + by simplify_eq. }
  split_and!.
  - rewrite Hfinal_q, Hq5, Hq4. done.
  - intros l Hl. rewrite (body_at_ext final w5), (body_at_ext w5 w4) by done.
    rewrite Hl in Hrb. subst rb. destruct Hb4 as [-> _]. by rewrite Hb3.
  - intros l Hl. rewrite (body_at_ext final w5), (body_at_ext w5 w4) by done.
    destruct rb as [l0|].
    + destruct Hb4 as [Htrim Hrest]. destruct (decide (l = l0)) as [->|Hne].
      * destruct (a_body args) as [b|]; [by subst b|].
        destruct Hrb as (l1 & [= <-] & Hempty).
        by rewrite Htrim, Hempty, trimUndefinedProperties_empty, <- Hb3, Hempty.
      * by rewrite Hrest, Hb3.
    + by rewrite (body_at_ext w4 w3), Hb3.
  - intros l Hl. rewrite (Hcaller _ Hl).
    destruct (Hua hl eq_refl) as [Huak Huav]. split.
    + intros k Hk Hcase. rewrite <- Huak by done.
      rewrite (headers_at_ext w3 w4) by done.
      destruct (not_false (a_enableAuth args)) eqn:Hnf.
      * assert (hl ≠ hl') by (intros ->; by destruct Hhl').
        by rewrite Hfinal_h, Hh5.
      * destruct Hhl' as [-> ->]. destruct Hcase as [|[Hct Hcl]]; [done|].
        by apply Hfinal_k.
    + rewrite <- Huav. rewrite (headers_at_ext w3 w4) by done.
      destruct (not_false (a_enableAuth args)) eqn:Hnf.
      * assert (hl ≠ hl') by (intros ->; by destruct Hhl').
        by rewrite Hfinal_h, Hh5.
      * destruct Hhl' as [-> ->]. by apply Hfinal_k.
  - intros l Hl Hne. pose proof (Hother l Hl Hne) as Hlhl.
    assert (Hl4 : l ∈ dom (w_headers w4)) by (rewrite Hh4; set_solver).
    assert (l ≠ hl').
    { destruct (not_false (a_enableAuth args)).
      - intros ->. by destruct Hhl'.
      - by destruct Hhl' as [-> _]. }
    rewrite Hfinal_h, Hh5 by done.
    rewrite <- (headers_at_ext w3 w4) by done. by apply Hh3.
  - intros d Hd. rewrite (Hdesc d Hd). split_and!.
    + done.
    + intros Hnf l Hl. rewrite Hnf in Hhl'. intros <-. apply (proj1 Hhl'). rewrite Hh4.
      destruct Hl as [Hl|Hl]; [set_solver|]. by rewrite (Hcaller _ Hl).
    + intros Hnf l Hl Hne. rewrite Hnf in Hhl'. destruct Hhl' as [-> _].
      intros <-. by apply (Hother hl).
  - exists evs. split; [|done]. by rewrite Hfinal_t, Ht5, Ht4, Ht3.
Qed.

(** The outcome of [getHttpRequestArgs] as a function of what the call
    reads: the URL, the method, the options, the query and the body. *)
Lemma getHttpRequestArgs_outcome `{!ParamHelpersSpec} self ent args w u0 :
  newURL (addProtocol (a_url args)) = Some u0 →
  let moved :=
    moveUrlQueryParamsIntoObject (applyParams (a_params args) u0)
      (formatQueryToString (query_or_empty w (a_query args))) in
  let method := toUpperCase (a_method args) in
  let bodyType := bodyTypeOf (a_forceBodyMode args) moved.1 in
  let descriptor hl' body :=
    {| rawUrl := url_origin u0 ++ url_pathname u0;
       d_url := addQueryParamsToUrl moved.1 moved.2;
       d_method := method;
       d_headers := hl';
       d_body := body |} in
  ∃ hl',
    (getHttpRequestArgs self ent args w).1 =
      if is_body_method method then
        match (constructBodyParams (trimmed_body w (a_body args)) ∅ bodyType).1 with
        | Returned p => Returned (descriptor hl' (or_undefined p))
        | Thrown e => Thrown e
        end
      else Returned (descriptor hl' None).
Proof.
  intros Hurl moved method bodyType descriptor.
  destruct (getHttpRequestArgs_run self ent args w)
    as (rb & w1 & hl & w2 & w3 & E1 & E2 & E3 & R).
  destruct (prelude_frame _ _ _ _ _ _ _ E1 E2 E3) as (Hq3 & _ & Hb3 & Hrb & _).
  rewrite Hurl in R. cbv zeta in R.
  rewrite (query_or_empty_ext w3 w) in R by done.
  fold moved in R. fold method in R. fold bodyType in R.
  destruct R as (w4 & hl' & w5 & E4 & E5 & R).
  destruct (trimmed_body_read _ _ _ _ _ Hb3 Hrb E4) as (Hbody & _).
  destruct (auth_step_frame _ _ _ _ _ _ _ _ _ _ _ _ E5) as (Hb5 & _).
  rewrite (body_data_ext w5 w4), Hbody in R by done.
  exists hl'. rewrite R. destruct (is_body_method method); [|done]. simpl.
  rewrite (constructBodyParams_result _ (headers_at w5 hl') ∅).
  by destruct (constructBodyParams _ _ _).1.
Qed.

Lemma trimmed_body_rerun `{!ParamHelpersSpec} self ent args w u0 :
  newURL (addProtocol (a_url args)) = Some u0 →
  trimmed_body (getHttpRequestArgs self ent args w).2 (a_body args)
    = trimmed_body w (a_body args).
Proof.
  intros Hurl.
  destruct (getHttpRequestArgs_store self ent args w) as (_ & Hb & _).
  destruct (a_body args) as [[l|]|]; try done. simpl.
  rewrite (Hb l eq_refl), Hurl. by rewrite trimUndefinedProperties_idemp.
Qed.

(** C5. Building the descriptor twice from the same request parameters and
    credentials gives the same [rawUrl], method and body, whether the second
    run starts from the same store or from the store the first run left (the
    same objects passed again), and whatever nonce and timestamp the signer
    reads in either run. *)
Theorem descriptor_is_reproducible `{!ParamHelpersSpec} self ent1 ent2 args w d1 w1 :
  getHttpRequestArgs self ent1 args w = (Returned d1, w1) →
  (∃ d2 w2,
     getHttpRequestArgs self ent2 args w = (Returned d2, w2)
     ∧ rawUrl d2 = rawUrl d1 ∧ d_method d2 = d_method d1 ∧ d_body d2 = d_body d1)
  ∧ (∃ d2 w2,
       getHttpRequestArgs self ent2 args w1 = (Returned d2, w2)
       ∧ rawUrl d2 = rawUrl d1 ∧ d_method d2 = d_method d1 ∧ d_body d2 = d_body d1).
Proof.
  intros Hrun.
  destruct (newURL (addProtocol (a_url args))) as [u0|] eqn:Hurl.
  2: { destruct (getHttpRequestArgs_run self ent1 args w)
         as (? & ? & ? & ? & ? & _ & _ & _ & R).
       rewrite Hurl in R. congruence. }
  destruct (getHttpRequestArgs_outcome self ent1 args w u0 Hurl) as (hl1 & O1).
  rewrite Hrun in O1. simpl in O1.
  assert (Hq : query_or_empty w1 (a_query args) = query_or_empty w (a_query args)).
  { apply query_or_empty_ext.
    destruct (getHttpRequestArgs_store self ent1 args w) as (Hq & _).
    by rewrite Hrun in Hq. }
  assert (Hb : trimmed_body w1 (a_body args) = trimmed_body w (a_body args)).
  { pose proof (trimmed_body_rerun self ent1 args w u0 Hurl) as Hb.
    by rewrite Hrun in Hb. }
  split.
  - destruct (getHttpRequestArgs_outcome self ent2 args w u0 Hurl) as (hl2 & O2).
    destruct (getHttpRequestArgs self ent2 args w) as [o2 w2]. simpl in O2. subst o2.
    destruct (is_body_method _).
    + destruct (constructBodyParams _ _ _).1; [|done].
      injection O1 as ->. by eexists _, _.
    + injection O1 as ->. by eexists _, _.
  - destruct (getHttpRequestArgs_outcome self ent2 args w1 u0 Hurl) as (hl2 & O2).
    rewrite Hq, Hb in O2.
    destruct (getHttpRequestArgs self ent2 args w1) as [o2 w2]. simpl in O2. subst o2.
    destruct (is_body_method _).
    + destruct (constructBodyParams _ _ _).1; [|done].
      injection O1 as ->. by eexists _, _.
    + injection O1 as ->. by eexists _, _.
Qed.

Lemma send_run self ent args w :
  match getHttpRequestArgs self ent args w with
  | (Returned d, w1) =>
      ∃ data,
        send self ent args w
          = (Returned data, with_event (EvMakeRequest data) (with_length d w1))
        ∧ r_url data = d_url d
        ∧ r_body data = d_body d
        ∧ o_method (r_options data) = d_method d
        ∧ o_headers (r_options data) = d_headers d
        ∧ r_rateLimitSaver data =
            (if not_false (a_enableRateLimitSave args) then Some (rawUrl d) else None)
  | (Thrown e, w1) => send self ent args w = (Thrown e, w1)
  end.
Proof.
  unfold send, bind. destruct (getHttpRequestArgs self ent args w) as [[d|e] w1]; [|done].
  exists
    {| r_url := d_url d;
       r_options := {| o_method := d_method d; o_headers := d_headers d;
                       o_timeout := a_timeout args;
                       o_agent := httpAgent (_clientSettings self) |};
       r_body := d_body d;
       r_rateLimitSaver :=
         if not_false (a_enableRateLimitSave args) then Some (rawUrl d) else None;
       r_requestEventDebugHandler := a_requestEventDebugHandler args;
       r_payloadIsError := None;
       r_compression :=
         negb (or_truthy (a_disableCompression args)
                 (cs_disableCompression (_clientSettings self))) |}.
  unfold with_length, readHeaders, writeHeaders, emit, ret.
  destruct (d_body d) as [payload|]; [destruct (payload_truthy _)|]; done.
Qed.

Lemma sendStream_run self ent args w :
  match getHttpRequestArgs self ent args w with
  | (Returned d, w1) =>
      ∃ stream,
        let w2 := with_event (EvNewStream (ts_requestData stream)) (with_length d w1) in
        sendStream self ent args w
          = (if not_false (a_autoConnect args)
             then (Returned (ConnectPromise stream), with_event (EvConnect stream) w2)
             else (Returned (StreamHandle stream), w2))
        ∧ r_url (ts_requestData stream) = d_url d
        ∧ r_body (ts_requestData stream) = d_body d
        ∧ o_method (r_options (ts_requestData stream)) = d_method d
        ∧ o_headers (r_options (ts_requestData stream)) = d_headers d
        ∧ o_timeout (r_options (ts_requestData stream)) = None
  | (Thrown e, w1) => sendStream self ent args w = (Thrown e, w1)
  end.
Proof.
  unfold sendStream, bind.
  destruct (getHttpRequestArgs self ent args w) as [[d|e] w1]; [|done].
  exists
    {| ts_requestData :=
         {| r_url := d_url d;
            r_options := {| o_method := d_method d; o_headers := d_headers d;
                            o_timeout := None;
                            o_agent := httpAgent (_clientSettings self) |};
            r_body := d_body d;
            r_rateLimitSaver :=
              if not_false (a_enableRateLimitSave args) then Some (rawUrl d) else None;
            r_requestEventDebugHandler := None;
            r_payloadIsError := a_payloadIsError args;
            r_compression :=
              negb (or_truthy (a_disableCompression args)
                      (cs_disableCompression (_clientSettings self))) |} |}.
  unfold with_length, readHeaders, writeHeaders, emit, ret.
  destruct (d_body d) as [payload|]; [destruct (payload_truthy _)|];
    by destruct (not_false (a_autoConnect args)).
Qed.

Lemma not_false_true (b : option bool) : b ≠ Some false → not_false b = true.
Proof. by destruct b as [[]|]. Qed.

Lemma getHttpRequestArgs_changes `{!ParamHelpersSpec} self ent args w :
  only_declared_changes args w (getHttpRequestArgs self ent args w).2.
Proof.
  destruct (getHttpRequestArgs_store self ent args w)
    as (Hq & Hb & _ & Hh & _).
  split_and!.
  - done.
  - intros l Hl. destruct (Hh l Hl) as [Hk Hua]. split_and!.
    + intros k Hua' Hct Hcl. apply Hk; auto.
    + intros Hauth k Hua'. apply Hk; [done|]. left. by apply not_false_true.
    + done.
  - intros l k Hl. rewrite (Hb l Hl).
    destruct (newURL (addProtocol (a_url args))); [|by left].
    rewrite trimUndefinedProperties_lookup.
    destruct (body_at w l !! k) as [[]|]; auto.
Qed.

(** Writing the length header and logging an external call keep the
    changes within what is declared. *)
Lemma with_length_changes `{!ParamHelpersSpec} self ent args w d w1 ev :
  getHttpRequestArgs self ent args w = (Returned d, w1) →
  only_declared_changes args w (with_event ev (with_length d w1)).
Proof.
  intros Hrun.
  pose proof (getHttpRequestArgs_changes self ent args w) as (Hq & Hh & Hb).
  destruct (getHttpRequestArgs_store self ent args w)
    as (_ & _ & _ & _ & _ & Hd & _).
  rewrite Hrun in Hq, Hh, Hb, Hd. simpl in Hq, Hh, Hb, Hd.
  destruct (Hd d eq_refl) as (_ & Hfresh & _).
  assert (Hkeep : ∀ l k,
    (d_headers d = l → k ≠ "content-length") →
    headers_at (with_event ev (with_length d w1)) l !! k = headers_at w1 l !! k).
  { intros l k Hk. rewrite headers_at_with_event. unfold with_length.
    destruct (d_body d) as [payload|]; [|done].
    destruct (payload_truthy _); [|done].
    rewrite headers_at_with_headers. case_decide as Hl; [|done].
    subst l. by apply setBodyLengthHeader_headers, Hk. }
  assert (Hsame_b : w_bodies (with_event ev (with_length d w1)) = w_bodies w1).
  { unfold with_length. destruct (d_body d); [destruct (payload_truthy _)|]; done. }
  split_and!.
  - rewrite <- Hq. unfold with_length.
    destruct (d_body d); [destruct (payload_truthy _)|]; done.
  - intros l Hl. destruct (Hh l Hl) as (Hk & Hauth & Hua). split_and!.
    + intros k Hua' Hct Hcl. rewrite Hkeep by done. by apply Hk.
    + intros Hen k Hua'. rewrite Hkeep; [by apply Hauth|].
      intros Heq. exfalso. apply (Hfresh (not_false_true _ Hen) l); auto.
    + rewrite Hkeep by done. done.
  - intros l k Hl. rewrite (body_at_ext _ w1) by done. by apply Hb.
Qed.

(** C9 (amended). For a caller that passes distinct objects as query,
    headers and body, [getHttpRequestArgs], [send] and [sendStream] do change
    the objects of their caller, within these bounds: the query mapping is
    untouched; in the headers mapping the user agent is filled in when it is
    absent or empty, the content headers may be written when the call
    disables auth, and no other key changes; in the body mapping a key either
    keeps its value or held [undefined] and is removed. *)
Theorem caller_objects_change_as_declared `{!ParamHelpersSpec} self ent args w :
  only_declared_changes args w (getHttpRequestArgs self ent args w).2
  ∧ only_declared_changes args w (send self ent args w).2
  ∧ only_declared_changes args w (sendStream self ent args w).2.
Proof.
  split_and!.
  - apply getHttpRequestArgs_changes.
  - pose proof (send_run self ent args w) as Hs.
    pose proof (getHttpRequestArgs_changes self ent args w) as Hg.
    destruct (getHttpRequestArgs self ent args w) as [[d|e] w1] eqn:Hrun.
    + destruct Hs as (data & -> & _). simpl. by eapply with_length_changes.
    + by rewrite Hs.
  - pose proof (sendStream_run self ent args w) as Hs.
    pose proof (getHttpRequestArgs_changes self ent args w) as Hg.
    destruct (getHttpRequestArgs self ent args w) as [[d|e] w1] eqn:Hrun.
    + destruct Hs as (stream & Hs & _). cbv zeta in Hs. rewrite Hs.
      destruct (not_false (a_autoConnect args)); simpl.
      * pose proof (with_length_changes self ent args w d w1
                      (EvNewStream (ts_requestData stream)) Hrun) as Hc.
        exact Hc.
      * by eapply with_length_changes.
    + by rewrite Hs.
Qed.

(** C8. Once the descriptor is built, [sendStream] creates the stream;
    unless [autoConnect] is [false] it then calls [connect] and returns the
    promise of that call; when [autoConnect] is [false] it returns the stream
    itself and no [connect] call is made. *)
Theorem sendStream_connects_unless_disabled self ent args w d w1 :
  getHttpRequestArgs self ent args w = (Returned d, w1) →
  ∃ stream,
    r_url (ts_requestData stream) = d_url d
    ∧ o_headers (r_options (ts_requestData stream)) = d_headers d
    ∧ (a_autoConnect args ≠ Some false →
       ∃ w', sendStream self ent args w = (Returned (ConnectPromise stream), w')
             ∧ w_trace w' =
                 (w_trace w1 ++ [EvNewStream (ts_requestData stream); EvConnect stream])%list)
    ∧ (a_autoConnect args = Some false →
       ∃ w', sendStream self ent args w = (Returned (StreamHandle stream), w')
             ∧ w_trace w' = (w_trace w1 ++ [EvNewStream (ts_requestData stream)])%list
             ∧ ∀ s, EvConnect s ∈ w_trace w' → EvConnect s ∈ w_trace w).
Proof.
  intros Hrun.
  pose proof (sendStream_run self ent args w) as Hs. rewrite Hrun in Hs.
  destruct Hs as (stream & Hs & Hu & _ & _ & Hh & _). cbv zeta in Hs.
  assert (Htl : w_trace (with_length d w1) = w_trace w1).
  { unfold with_length. destruct (d_body d); [destruct (payload_truthy _)|]; done. }
  exists stream. split_and!; try done.
  - intros Hauto. rewrite (not_false_true _ Hauto) in Hs.
    eexists. split; [exact Hs|]. simpl. rewrite Htl. by rewrite <- app_assoc.
  - intros Hauto. rewrite Hauto in Hs. simpl in Hs.
    eexists. split; [exact Hs|]. simpl. rewrite Htl. split; [done|].
    intros s Hin.
    assert (∃ evs, w_trace w1 = (w_trace w ++ evs)%list
              ∧ ∀ ev, ev ∈ evs → ∃ o req tokens, ev = EvAuthorize o req tokens)
      as (evs & Hevs & Hall).
    { pose proof (getHttpRequestArgs_run self ent args w) as Hr. clear Hs.
      destruct Hr as (rb & w1' & hl & w2 & w3 & E1 & E2 & E3 & R).
      destruct (prelude_frame _ _ _ _ _ _ _ E1 E2 E3) as (_ & Ht3 & _).
      destruct (newURL (addProtocol (a_url args))); [|congruence].
      destruct R as (w4 & hl' & w5 & E4 & E5 & R).
      destruct (trimBody_run rb w3) as (w4' & E4' & _ & _ & Ht4 & _).
      rewrite E4 in E4'. injection E4' as <-.
      destruct (auth_step_frame _ _ _ _ _ _ _ _ _ _ _ _ E5)
        as (_ & _ & _ & _ & _ & evs & Ht5 & Hevs).
      exists evs. split; [|done].
      rewrite Hrun in R. rewrite <- Ht3, <- Ht4, <- Ht5.
      destruct (is_body_method _) in R.
      - destruct (constructBodyParams _ _ _).1 in R; [|done]. by injection R as _ ->.
      - by injection R as _ ->. }
    rewrite Hevs in Hin. rewrite <- app_assoc in Hin.
    apply elem_of_app in Hin as [Hin|Hin]; [done|].
    apply elem_of_app in Hin as [Hin|Hin].
    + destruct (Hall _ Hin) as (? & ? & ? & ?). discriminate.
    + apply list_elem_of_singleton in Hin. discriminate.
Qed.


(** C7. The rate-limit store keeps the last snapshot written under an
    endpoint key.  An endpoint key is the origin and pathname of a URL, which
    is never the string ["__proto__"], the one key under which an assignment
    to a plain object stores no entry.  After [save key S1] and
    [save key S2] a read of [key] gives [S2], the store is the one a single
    [save key S2] gives, and a save leaves every other key as it was. *)
Theorem rate_limit_last_write_wins self key S1 S2 :
  key ≠ "__proto__" →
  getRateLimit (saveRateLimit (saveRateLimit self key S1) key S2) key = Some S2
  ∧ saveRateLimit (saveRateLimit self key S1) key S2 = saveRateLimit self key S2
  ∧ getRateLimit
      (callRateLimitSaver (callRateLimitSaver self (Some key) S1) (Some key) S2) key
    = Some S2
  ∧ ∀ other, other ≠ key →
      getRateLimit (saveRateLimit self key S2) other = getRateLimit self other.
Proof.
  intros _.
  unfold getRateLimit, callRateLimitSaver, saveRateLimit. simpl. split_and!.
  - apply lookup_insert_eq.
  - by rewrite insert_insert_eq.
  - apply lookup_insert_eq.
  - intros other Hne. by apply lookup_insert_ne.
Qed.

End Properties.

(** ** The properties on the sample platform *)

Import Sample.

(** The sample helpers keep the contract of the helpers. *)
Lemma sample_helpers_spec : @ParamHelpersSpec Sample.platform Sample.helpers.
Proof.
  split.
  - intros [m|bytes] h h' mode; simpl; [|done]. by repeat case_bool_decide.
  - intros [m|bytes] h mode k Hct Hcl; simpl; [|done].
    repeat case_bool_decide; simpl; by rewrite ?lookup_insert_ne.
  - intros q m k. simpl. rewrite lookup_union. unfold query_data. rewrite lookup_fmap.
    by destruct (m !! k), (q !! k).
  - intros h p k Hcl. simpl. by rewrite lookup_insert_ne.
Qed.

Lemma oauth1_signature_data_witness :
  ∃ request,
    w_trace (getHttpRequestArgs Sample.oauthClient Sample.entropy
               (Sample.withObjects "post" "api.twitter.com/1.1/x.json")
               Sample.callerWorld).2
      = [EvAuthorize Sample.signer request (getOAuthAccessTokens Sample.oauthClient)]
    ∧ oa_method request = "POST"
    ∧ oa_url request = "https://api.twitter.com/1.1/x.json"
    ∧ oa_data request !! "a" = Some (JStr "1")
    ∧ oa_data request !! "b" = None
    ∧ oa_data request !! "q" = Some (JStr "5").
Proof.
  destruct (oauth1_signature_data (H0 := sample_helpers_spec)
              Sample.oauthClient Sample.entropy
              (Sample.withObjects "post" "api.twitter.com/1.1/x.json")
              Sample.callerWorld Sample.signer
              {| Sample.su_origin := "https://api.twitter.com";
                 Sample.su_pathname := "/1.1/x.json";
                 Sample.su_search := [] |}
              eq_refl eq_refl eq_refl eq_refl eq_refl ltac:(discriminate) eq_refl)
    as (request & Htrace & Hmethod & Hurl & Hmerge & _).
  exists request. split; [exact Htrace|]. split; [exact Hmethod|]. split; [exact Hurl|].
  destruct Hmerge as [Hdata _].
  { split; [|reflexivity]. refine (bool_decide_unpack _ _). vm_compute. exact I. }
  rewrite Hdata. by vm_compute.
Defined.

Lemma bearer_token_always_wins_witness :
  ∃ d w',
    getHttpRequestArgs bearerClient entropy
      (withObjects "POST" "api.twitter.com/1.1/x.json") callerWorld = (Returned d, w')
    ∧ headers_at w' (d_headers d) !! "Authorization" = Some "Bearer TOK".
Proof.
  destruct (getHttpRequestArgs bearerClient entropy
              (withObjects "POST" "api.twitter.com/1.1/x.json") callerWorld)
    as [[d|e] w'] eqn:Hrun; [|vm_compute in Hrun; discriminate].
  exists d, w'. split; [reflexivity|].
  exact (proj2 (bearer_token_always_wins (H0 := sample_helpers_spec)
                  bearerClient entropy
                  (withObjects "POST" "api.twitter.com/1.1/x.json") callerWorld "TOK"
                  eq_refl ltac:(discriminate))
           ltac:(simpl; discriminate) d w' Hrun).
Defined.

Lemma body_absent_without_body_method_witness :
  ∃ d w',
    getHttpRequestArgs bearerClient entropy
      (withObjects "get" "api.twitter.com/1.1/y.json?q=5") callerWorld = (Returned d, w')
    ∧ d_body d = None.
Proof.
  refine (body_absent_without_body_method bearerClient entropy
            (withObjects "get" "api.twitter.com/1.1/y.json?q=5") callerWorld _).
  refine (proj1 (bool_decide_eq_false _) _). vm_compute. reflexivity.
Defined.

Lemma descriptor_is_reproducible_witness :
  ∃ d1 w1 d2 w2,
    getHttpRequestArgs oauthClient entropy
      (withObjects "POST" "api.twitter.com/1.1/x.json") callerWorld = (Returned d1, w1)
    ∧ getHttpRequestArgs oauthClient ("later", 7%Z)
        (withObjects "POST" "api.twitter.com/1.1/x.json") w1 = (Returned d2, w2)
    ∧ rawUrl d2 = rawUrl d1 ∧ d_method d2 = d_method d1 ∧ d_body d2 = d_body d1
    ∧ d_body d1 = Some (PayloadString "a=1").
Proof.
  destruct (getHttpRequestArgs oauthClient entropy
              (withObjects "POST" "api.twitter.com/1.1/x.json") callerWorld)
    as [[d1|e] w1] eqn:Hrun; [|vm_compute in Hrun; discriminate].
  destruct (descriptor_is_reproducible (H0 := sample_helpers_spec)
              oauthClient entropy ("later", 7%Z) _ _ d1 w1 Hrun)
    as [_ (d2 & w2 & Hrerun & Hraw & Hmethod & Hbody)].
  exists d1, w1, d2, w2. repeat (split; [done|]).
  vm_compute in Hrun. by injection Hrun as <- _.
Defined.

Lemma sendStream_connects_unless_disabled_witness :
  (∃ stream w',
     sendStream oauthClient entropy (sampleStream (Some false)) emptyWorld
       = (Returned (StreamHandle stream), w')
     ∧ ∀ s, EvConnect s ∉ w_trace w')
  ∧ (∃ stream w',
       sendStream oauthClient entropy (sampleStream None) emptyWorld
         = (Returned (ConnectPromise stream), w')
       ∧ EvConnect stream ∈ w_trace w').
Proof.
  split.
  - destruct (getHttpRequestArgs oauthClient entropy (sampleStream (Some false)) emptyWorld)
      as [[d|e] w1] eqn:Hrun; [|vm_compute in Hrun; discriminate].
    destruct (sendStream_connects_unless_disabled oauthClient entropy _ _ d w1 Hrun)
      as (stream & _ & _ & _ & Hoff).
    destruct (Hoff eq_refl) as (w' & Hs & _ & Hno).
    exists stream, w'. split; [exact Hs|].
    intros s Hin. apply Hno in Hin. inversion Hin.
  - destruct (getHttpRequestArgs oauthClient entropy (sampleStream None) emptyWorld)
      as [[d|e] w1] eqn:Hrun; [|vm_compute in Hrun; discriminate].
    destruct (sendStream_connects_unless_disabled oauthClient entropy _ _ d w1 Hrun)
      as (stream & _ & _ & Hon & _).
    destruct Hon as (w' & Hs & Ht); [simpl; discriminate|].
    exists stream, w'. split; [exact Hs|]. rewrite Ht. set_solver.
Defined.

Lemma caller_objects_change_as_declared_witness :
  only_declared_changes (withObjects "POST" "api.twitter.com/1.1/x.json") callerWorld
    (send oauthClient entropy (withObjects "POST" "api.twitter.com/1.1/x.json")
       callerWorld).2.
Proof.
  exact (proj1 (proj2 (caller_objects_change_as_declared (H0 := sample_helpers_spec)
                         oauthClient entropy _ callerWorld))).
Defined.

Lemma rawUrl_is_unparameterized_witness :
  ∃ d1 w1 d2 w2,
    getHttpRequestArgs bearerClient entropy (userTweets "12") emptyWorld = (Returned d1, w1)
    ∧ getHttpRequestArgs bearerClient entropy (userTweets "34") emptyWorld = (Returned d2, w2)
    ∧ rawUrl d1 = rawUrl d2
    ∧ rawUrl d1 = "https://api.twitter.com/2/users/:id/tweets"
    ∧ url_toString (d_url d1) = "https://api.twitter.com/2/users/12/tweets".
Proof.
  destruct (getHttpRequestArgs bearerClient entropy (userTweets "12") emptyWorld)
    as [[d1|e] w1] eqn:Hrun1; [|vm_compute in Hrun1; discriminate].
  destruct (getHttpRequestArgs bearerClient entropy (userTweets "34") emptyWorld)
    as [[d2|e] w2] eqn:Hrun2; [|vm_compute in Hrun2; discriminate].
  destruct (rawUrl_is_unparameterized bearerClient bearerClient entropy entropy
              (userTweets "12") (userTweets "34") _ _ d1 d2 w1 w2 eq_refl Hrun1 Hrun2)
    as [Hsame _].
  exists d1, w1, d2, w2. repeat (split; [done|]).
  vm_compute in Hrun1. by injection Hrun1 as <- _.
Defined.

(** C3. The protocol step tests the first four characters of the URL, not
    its scheme.  ["httpbin.org/get"] carries no scheme and starts with
    ["http"]: nothing is prepended, the string is parsed as it is and the
    call throws.  ["ftp://example.com/a"] carries a scheme and gets
    ["https://"] prepended.  A URL without a scheme that starts otherwise,
    as ["api.twitter.com/1.1/x.json"], is prefixed. *)
Theorem protocol_step_tests_a_prefix_not_a_scheme :
  (carries_scheme "httpbin.org/get" = false
   ∧ addProtocol "httpbin.org/get" = "httpbin.org/get"
   ∧ newURL (addProtocol "httpbin.org/get") = None
   ∧ (getHttpRequestArgs anonymous entropy (request "GET" "httpbin.org/get") emptyWorld).1
       = Thrown "Invalid URL")
  ∧ (carries_scheme "ftp://example.com/a" = true
     ∧ addProtocol "ftp://example.com/a" = "https://ftp://example.com/a")
  ∧ (carries_scheme "api.twitter.com/1.1/x.json" = false
     ∧ addProtocol "api.twitter.com/1.1/x.json" = "https://api.twitter.com/1.1/x.json").
Proof. by vm_compute. Qed.


(** C9, counterexample: after the call the caller's headers hold a user
    agent and the caller's body has lost a key. *)
Lemma caller_objects_are_mutated :
  let args := withObjects "POST" "api.twitter.com/1.1/x.json" in
  let w' := (getHttpRequestArgs oauthClient entropy args callerWorld).2 in
  a_headers args = Some 1%positive
  ∧ a_body args = Some (BodyRef 1%positive)
  ∧ headers_at callerWorld 1%positive !! "x-user-agent" = None
  ∧ headers_at w' 1%positive !! "x-user-agent" = Some "Node.twitter-api-v2"
  ∧ body_at callerWorld 1%positive !! "b" = Some JUndefined
  ∧ body_at w' 1%positive !! "b" = None.
Proof. by vm_compute. Qed.

(** ** Further properties of the request maker *)

Section MoreProperties.
Context `{PH : ParamHelpers} `{OA : OAuthApi}.
Implicit Types (w : World) (self : ClientRequestMaker) (args : IGetHttpRequestArgs).
Implicit Types (l hl : loc) (rb : TRequestBody).

(** The headers the caller gave, with the user agent filled in. *)
Lemma given_headers_with_agent args w :
  ∀ rb w1 hl w2 w3,
    bodyOrDefault (a_body args) w = (Returned rb, w1) →
    headersOrDefault (a_headers args) w1 = (Returned hl, w2) →
    addUserAgent hl w2 = (Returned tt, w3) →
    let given := match a_headers args with Some l => headers_at w l | None => ∅ end in
    headers_at w3 hl =
      (if truthy (given !! "x-user-agent") then given
       else <["x-user-agent" := "Node.twitter-api-v2"]> given).
Proof.
  intros rb w1 hl w2 w3 E1 E2 E3 given.
  destruct (prelude_frame _ _ _ _ _ _ _ E1 E2 E3)
    as (_ & _ & _ & _ & Hhl & _ & _ & _ & Hua).
  assert (Hgiven : headers_at w hl = given).
  { subst given. destruct (a_headers args); [by subst|].
    by apply headers_at_unallocated. }
  by rewrite Hua, Hgiven.
Qed.

(** Whatever the credentials, [writeAuthHeaders] changes no entry but
    [Authorization]. *)
Lemma writeAuthHeaders_other_keys `{!OAuthApiSpec}
    self ent hl sig url method query rb w hl' w1 k :
  writeAuthHeaders self ent hl sig url method query rb w = (Returned hl', w1) →
  k ≠ "Authorization" →
  headers_at w1 hl' !! k = headers_at w hl !! k.
Proof.
  intros E Hk.
  destruct (truthy (_bearerToken self)) eqn:Hbearer.
  { destruct (writeAuthHeaders_bearer _ _ _ _ _ _ _ _ _ _ _ Hbearer E) as [-> _].
    by rewrite lookup_insert_ne. }
  revert E.
  unfold writeAuthHeaders, bind, readHeaders, allocHeaders, setHeader, writeHeaders, ret,
    readBodyData, emit.
  rewrite Hbearer.
  destruct (truthy (_basicToken self)); simpl;
    [|destruct (truthy (_clientId self) && truthy (_clientSecret self)); simpl;
      [|destruct (truthy (_consumerSecret self)), (_oauth self) as [o|]; simpl]].
  3: destruct sig; simpl.
  all: intros [= <- <-]; simpl.
  all: rewrite ?headers_at_with_headers_eq, ?headers_at_with_event,
         ?headers_at_with_headers_eq.
  all: rewrite ?lookup_insert_ne by done; try done.
  all: rewrite lookup_union_r; [done|by apply toHeader_keys].
Qed.

(** The descriptor's headers, seen from the authentication step. *)
Lemma getHttpRequestArgs_headers `{!ParamHelpersSpec} self ent args w d w' :
  getHttpRequestArgs self ent args w = (Returned d, w') →
  let given := match a_headers args with Some l => headers_at w l | None => ∅ end in
  ∃ hl sig url method query rb w4 w5,
    (if not_false (a_enableAuth args)
     then writeAuthHeaders self ent hl sig url method query rb
     else ret hl) w4 = (Returned (d_headers d), w5)
    ∧ headers_at w4 hl =
        (if truthy (given !! "x-user-agent") then given
         else <["x-user-agent" := "Node.twitter-api-v2"]> given)
    ∧ w_trace w4 = w_trace w
    ∧ w_trace w' = w_trace w5
    ∧ match a_headers args with Some l => hl = l | None => hl ∉ dom (w_headers w) end
    ∧ dom (w_headers w) ⊆ dom (w_headers w4)
    ∧ hl ∈ dom (w_headers w4)
    ∧ ∀ k, k ≠ "content-type" → k ≠ "content-length" →
        headers_at w' (d_headers d) !! k = headers_at w5 (d_headers d) !! k.
Proof.
  intros Hrun given.
  destruct (getHttpRequestArgs_run self ent args w)
    as (rb & w1 & hl & w2 & w3 & E1 & E2 & E3 & R).
  pose proof (given_headers_with_agent args w _ _ _ _ _ E1 E2 E3) as Hgiven.
  destruct (prelude_frame _ _ _ _ _ _ _ E1 E2 E3)
    as (_ & Ht3 & _ & _ & Hhl & Hin3 & Hd3 & _).
  destruct (newURL (addProtocol (a_url args))) as [u0|]; [|congruence].
  cbv zeta in R. destruct R as (w4 & hl' & w5 & E4 & E5 & R).
  destruct (trimBody_run rb w3) as (w4' & E4' & Hh4 & _ & Ht4 & _).
  rewrite E4 in E4'. injection E4' as <-.
  rewrite Hrun in R.
  assert (d_headers d = hl' ∧ w_trace w' = w_trace w5
          ∧ ∀ k, k ≠ "content-type" → k ≠ "content-length" →
              headers_at w' hl' !! k = headers_at w5 hl' !! k) as (-> & Ht & Hk).
  { destruct (is_body_method _) in R.
    - destruct (constructBodyParams _ _ _).1 in R; [|done].
      injection R as -> ->. simpl. split_and!; try done.
      intros k Hct Hcl. rewrite headers_at_with_headers_eq.
      by apply constructBodyParams_headers.
    - by injection R as -> ->. }
  eexists hl, _, _, _, _, rb, w4, w5. split; [exact E5|].
  split_and!; try done.
  - by rewrite <- (headers_at_ext w3 w4).
  - congruence.
  - by rewrite Hh4.
  - by rewrite Hh4.
Qed.

(** X1. The headers of a descriptor are the headers the caller gave: apart
    from [x-user-agent], [Authorization] and the two content headers every
    entry is the caller's, none is added and none is dropped; [x-user-agent]
    is the caller's when it is a non-empty string and ["Node.twitter-api-v2"]
    otherwise, so it is never missing or empty. *)
Theorem descriptor_headers_come_from_caller `{!ParamHelpersSpec} `{!OAuthApiSpec}
    self ent args w d w' :
  getHttpRequestArgs self ent args w = (Returned d, w') →
  let given := match a_headers args with Some l => headers_at w l | None => ∅ end in
  (∀ k, k ≠ "x-user-agent" → k ≠ "Authorization" →
        k ≠ "content-type" → k ≠ "content-length" →
        headers_at w' (d_headers d) !! k = given !! k)
  ∧ headers_at w' (d_headers d) !! "x-user-agent" =
      (if truthy (given !! "x-user-agent") then given !! "x-user-agent"
       else Some "Node.twitter-api-v2")
  ∧ truthy (headers_at w' (d_headers d) !! "x-user-agent") = true.
Proof.
  intros Hrun given.
  destruct (getHttpRequestArgs_headers self ent args w d w' Hrun)
    as (hl & sig & url & method & query & rb & w4 & w5 & E5 & Hgiven & _ & _ & _ & _ & _ & Hk).
  fold given in Hgiven.
  assert (Hauth : ∀ k, k ≠ "Authorization" →
    headers_at w5 (d_headers d) !! k = headers_at w4 hl !! k).
  { intros k Hne. destruct (not_false (a_enableAuth args)).
    - by eapply writeAuthHeaders_other_keys.
    - by injection E5 as <- <-. }
  assert (Hua : headers_at w' (d_headers d) !! "x-user-agent" =
    (if truthy (given !! "x-user-agent") then given !! "x-user-agent"
     else Some "Node.twitter-api-v2")).
  { rewrite Hk, Hauth, Hgiven by done.
    destruct (truthy (given !! "x-user-agent")); [done|]. by rewrite lookup_insert_eq. }
  split_and!.
  - intros k Hua' Hne Hct Hcl. rewrite Hk, Hauth, Hgiven by done.
    destruct (truthy (given !! "x-user-agent")); [done|]. by rewrite lookup_insert_ne.
  - done.
  - rewrite Hua. by destruct (truthy (given !! "x-user-agent")) eqn:Ht.
Qed.


(** X2. When the URL, with the protocol added, does not parse,
    [getHttpRequestArgs], [send] and [sendStream] throw: nothing is signed,
    no external call is made, no body is trimmed and no query is touched, but
    the user agent has already been written into the caller's headers. *)
Theorem invalid_url_throws_after_user_agent self ent args w :
  newURL (addProtocol (a_url args)) = None →
  ∃ w',
    getHttpRequestArgs self ent args w = (Thrown "Invalid URL", w')
    ∧ send self ent args w = (Thrown "Invalid URL", w')
    ∧ sendStream self ent args w = (Thrown "Invalid URL", w')
    ∧ w_trace w' = w_trace w
    ∧ w_queries w' = w_queries w
    ∧ (∀ l, body_at w' l = body_at w l)
    ∧ (∀ l, a_headers args = Some l →
         headers_at w' l =
           if truthy (headers_at w l !! "x-user-agent") then headers_at w l
           else <["x-user-agent" := "Node.twitter-api-v2"]> (headers_at w l)).
Proof.
  intros Hurl.
  destruct (getHttpRequestArgs_run self ent args w)
    as (rb & w1 & hl & w2 & w3 & E1 & E2 & E3 & R).
  destruct (prelude_frame _ _ _ _ _ _ _ E1 E2 E3)
    as (Hq & Ht & Hb & _ & Hhl & _ & _ & _ & Hua).
  rewrite Hurl in R. exists w3.
  pose proof (send_run self ent args w) as Hsend.
  pose proof (sendStream_run self ent args w) as Hstream.
  rewrite R in Hsend, Hstream.
  split_and!; try done.
  intros l Hl. rewrite Hl in Hhl. by subst hl.
Qed.

Lemma writeAuthHeaders_basic self ent hl sig url method query rb w hl' w1 :
  truthy (_bearerToken self) = false →
  truthy (_basicToken self) = true →
  writeAuthHeaders self ent hl sig url method query rb w = (Returned hl', w1) →
  headers_at w1 hl' =
    <["Authorization" := "Basic " ++ str (_basicToken self)]> (headers_at w hl)
  ∧ w_trace w1 = w_trace w.
Proof.
  unfold writeAuthHeaders, bind, readHeaders, allocHeaders, setHeader, writeHeaders, ret.
  intros -> -> [= <- <-]. simpl.
  by rewrite !headers_at_with_headers_eq.
Qed.

Lemma writeAuthHeaders_client self ent hl sig url method query rb w hl' w1 :
  truthy (_bearerToken self) = false →
  truthy (_basicToken self) = false →
  truthy (_clientId self) && truthy (_clientSecret self) = true →
  writeAuthHeaders self ent hl sig url method query rb w = (Returned hl', w1) →
  headers_at w1 hl' =
    <["Authorization" :=
        "Basic " ++ getAuthHeader (str (_clientId self)) (str (_clientSecret self))]>
      (headers_at w hl)
  ∧ w_trace w1 = w_trace w.
Proof.
  unfold writeAuthHeaders, bind, readHeaders, allocHeaders, setHeader, writeHeaders, ret.
  intros -> -> -> [= <- <-]. simpl.
  by rewrite !headers_at_with_headers_eq.
Qed.

(** X3. With [enableAuth: false] nothing is signed and no credential is
    used, whatever the client holds: the [Authorization] entry of the
    descriptor is the caller's own (or absent), and the descriptor's headers
    are the very object the caller passed (a fresh one when none was
    passed). *)
Theorem disabled_auth_signs_nothing `{!ParamHelpersSpec} self ent args w d w' :
  a_enableAuth args = Some false →
  getHttpRequestArgs self ent args w = (Returned d, w') →
  let given := match a_headers args with Some l => headers_at w l | None => ∅ end in
  w_trace w' = w_trace w
  ∧ headers_at w' (d_headers d) !! "Authorization" = given !! "Authorization"
  ∧ (∀ l, a_headers args = Some l → d_headers d = l)
  ∧ (a_headers args = None → d_headers d ∉ dom (w_headers w)).
Proof.
  intros Hoff Hrun given.
  destruct (getHttpRequestArgs_headers self ent args w d w' Hrun)
    as (hl & sig & url & method & query & rb & w4 & w5 & E5 & Hgiven & Ht4 & Ht & Hhl & _ & _ & Hk).
  fold given in Hgiven. rewrite Hoff in E5. injection E5 as Hd Hw. subst w5.
  split_and!.
  - congruence.
  - rewrite Hk, <- Hd, Hgiven by done.
    destruct (truthy (given !! "x-user-agent")); [done|]. by rewrite lookup_insert_ne.
  - intros l Hl. rewrite Hl in Hhl. congruence.
  - intros Hnone. rewrite Hnone in Hhl. by rewrite <- Hd.
Qed.

(** X4. With auth enabled the descriptor's headers are a new object: it is
    none of the objects that existed before the call, in particular not the
    one the caller passed, and it is allocated in the store the call
    leaves. *)
Theorem enabled_auth_returns_a_fresh_headers_object `{!ParamHelpersSpec}
    self ent args w d w' :
  a_enableAuth args ≠ Some false →
  getHttpRequestArgs self ent args w = (Returned d, w') →
  d_headers d ∉ dom (w_headers w)
  ∧ a_headers args ≠ Some (d_headers d)
  ∧ d_headers d ∈ dom (w_headers w').
Proof.
  intros Hon Hrun.
  destruct (getHttpRequestArgs_headers self ent args w d w' Hrun)
    as (hl & sig & url & method & query & rb & w4 & w5 & E5 & _ & _ & _ & Hhl & Hd4 & Hin4 & _).
  rewrite (not_false_true _ Hon) in E5.
  destruct (writeAuthHeaders_run self ent hl sig url method query rb w4)
    as (hl' & w5' & E5' & _ & _ & Hfresh & _).
  rewrite E5 in E5'. injection E5' as <- <-.
  destruct (getHttpRequestArgs_store self ent args w) as (_ & _ & _ & _ & _ & Hd & _).
  rewrite Hrun in Hd. destruct (Hd d eq_refl) as (Hin & _).
  split_and!.
  - set_solver.
  - intros Heq. rewrite Heq in Hhl. subst hl. done.
  - done.
Qed.

(** X5. Without a bearer token, a basic token wins over OAuth2 client
    credentials and over OAuth1, and client credentials (both id and secret)
    win over OAuth1: the [Authorization] entry is ["Basic "] followed by the
    token, or by [getAuthHeader] of the pair, and the signer is not called. *)
Theorem basic_schemes_precede_oauth1 `{!ParamHelpersSpec} self ent args w d w' :
  truthy (_bearerToken self) = false →
  a_enableAuth args ≠ Some false →
  getHttpRequestArgs self ent args w = (Returned d, w') →
  (truthy (_basicToken self) = true →
   headers_at w' (d_headers d) !! "Authorization"
     = Some ("Basic " ++ str (_basicToken self))
   ∧ w_trace w' = w_trace w)
  ∧ (truthy (_basicToken self) = false →
     truthy (_clientId self) && truthy (_clientSecret self) = true →
     headers_at w' (d_headers d) !! "Authorization"
       = Some ("Basic " ++ getAuthHeader (str (_clientId self)) (str (_clientSecret self)))
     ∧ w_trace w' = w_trace w).
Proof.
  intros Hbearer Hon Hrun.
  destruct (getHttpRequestArgs_headers self ent args w d w' Hrun)
    as (hl & sig & url & method & query & rb & w4 & w5 & E5 & _ & Ht4 & Ht & _ & _ & _ & Hk).
  rewrite (not_false_true _ Hon) in E5.
  split.
  - intros Hbasic.
    destruct (writeAuthHeaders_basic _ _ _ _ _ _ _ _ _ _ _ Hbearer Hbasic E5) as [Hh Ht5].
    split; [|congruence]. by rewrite Hk, Hh, lookup_insert_eq.
  - intros Hbasic Hclient.
    destruct (writeAuthHeaders_client _ _ _ _ _ _ _ _ _ _ _ Hbearer Hbasic Hclient E5)
      as [Hh Ht5].
    split; [|congruence]. by rewrite Hk, Hh, lookup_insert_eq.
Qed.

(** X6. An OAuth1 signature is asked with the access token and secret
    when the client holds both, and with no token at all (a two-legged
    request) as soon as one of the two is missing or empty: half a pair is
    dropped without an error. *)
Theorem oauth1_tokens_need_both_halves `{!ParamHelpersSpec} self ent args w oauth d w' :
  truthy (_bearerToken self) = false →
  truthy (_basicToken self) = false →
  truthy (_clientId self) && truthy (_clientSecret self) = false →
  truthy (_consumerSecret self) = true →
  _oauth self = Some oauth →
  a_enableAuth args ≠ Some false →
  getHttpRequestArgs self ent args w = (Returned d, w') →
  ∃ request tokens,
    w_trace w' = (w_trace w ++ [EvAuthorize oauth request tokens])%list
    ∧ (truthy (_accessToken self) = true → truthy (_accessSecret self) = true →
       tokens = Some {| tok_key := str (_accessToken self);
                        tok_secret := str (_accessSecret self) |})
    ∧ (truthy (_accessToken self) = false ∨ truthy (_accessSecret self) = false →
       tokens = None).
Proof.
  intros Hbearer Hbasic Hclient Hsecret Hoauth Hon Hrun.
  destruct (getHttpRequestArgs_headers self ent args w d w' Hrun)
    as (hl & sig & url & method & query & rb & w4 & w5 & E5 & _ & Ht4 & Ht & _).
  rewrite (not_false_true _ Hon) in E5.
  destruct (writeAuthHeaders_oauth1 _ _ _ _ _ _ _ _ _ _ _ _
              Hbearer Hbasic Hclient Hsecret Hoauth E5) as [Ht5 _].
  eexists _, (getOAuthAccessTokens self). split_and!.
  - rewrite Ht, Ht5, Ht4. reflexivity.
  - unfold getOAuthAccessTokens. by intros -> ->.
  - unfold getOAuthAccessTokens. intros [-> | ->]; [by rewrite orb_true_r|done].
Qed.


(** When [getHttpRequestArgs] returns: the URL parses and, for a method that
    carries a body, the encoder accepts the trimmed body. *)
Lemma getHttpRequestArgs_returns_iff `{!ParamHelpersSpec} self ent args w :
  (∃ d w', getHttpRequestArgs self ent args w = (Returned d, w'))
  ↔ ∃ u0,
      newURL (addProtocol (a_url args)) = Some u0
      ∧ (toUpperCase (a_method args) ∈ BODY_METHODS →
         ∃ p,
           (constructBodyParams (trimmed_body w (a_body args)) ∅
              (bodyTypeOf (a_forceBodyMode args)
                 (moveUrlQueryParamsIntoObject (applyParams (a_params args) u0)
                    (formatQueryToString (query_or_empty w (a_query args)))).1)).1
           = Returned p).
Proof.
  destruct (newURL (addProtocol (a_url args))) as [u0|] eqn:Hurl.
  2: { split; [|by intros (? & ? & _)]. intros (d & w' & Hrun).
       destruct (getHttpRequestArgs_run self ent args w)
         as (? & ? & ? & ? & ? & _ & _ & _ & R).
       rewrite Hurl in R. congruence. }
  destruct (getHttpRequestArgs_outcome self ent args w u0 Hurl) as (hl' & O).
  cbv zeta in O. unfold is_body_method in O.
  destruct (getHttpRequestArgs self ent args w) as [o w'] eqn:Hrun. simpl in O. subst o.
  split.
  - intros (d & w'' & [= Hd _]). exists u0. split; [done|]. intros Hm.
    rewrite bool_decide_eq_true_2 in Hd by done.
    destruct (constructBodyParams _ _ _).1; [eauto|done].
  - intros (u & [= <-] & Henc). case_bool_decide as Hm; [|eauto].
    destruct (Henc Hm) as (p & ->). eauto.
Qed.

(** The fields of a descriptor that do not depend on the store. *)
Lemma descriptor_fields self ent args w d w' :
  getHttpRequestArgs self ent args w = (Returned d, w') →
  ∃ u0, newURL (addProtocol (a_url args)) = Some u0
        ∧ rawUrl d = url_origin u0 ++ url_pathname u0
        ∧ d_method d = toUpperCase (a_method args)
        ∧ d_body d ≠ Some (PayloadString "")
        ∧ (toUpperCase (a_method args) ∉ BODY_METHODS → d_body d = None).
Proof.
  intros Hrun.
  destruct (getHttpRequestArgs_run self ent args w)
    as (? & ? & ? & ? & ? & _ & _ & _ & R).
  destruct (newURL (addProtocol (a_url args))) as [u0|]; [|congruence].
  destruct R as (? & ? & ? & _ & _ & R). rewrite Hrun in R. exists u0.
  unfold is_body_method in R. case_bool_decide as Hm.
  - destruct (constructBodyParams _ _ _).1 as [p|]; [|done]. injection R as -> _. simpl.
    split_and!; try done. by destruct p as [[[|]|]|].
  - injection R as -> _. by split_and!.
Qed.

(** X7. The hook [send] hands to the executor saves under [rawUrl]: two
    requests on the same URL, whatever else differs, report under the same
    key, the origin and pathname of that URL, so that the second report
    replaces the first and no other key of the store changes. *)
Theorem rate_limits_are_kept_per_endpoint
    self ent1 ent2 args1 args2 w1 w2 data1 data2 w1' w2' S1 S2 :
  a_url args1 = a_url args2 →
  a_enableRateLimitSave args1 ≠ Some false →
  a_enableRateLimitSave args2 ≠ Some false →
  send self ent1 args1 w1 = (Returned data1, w1') →
  send self ent2 args2 w2 = (Returned data2, w2') →
  let after :=
    callRateLimitSaver (callRateLimitSaver self (r_rateLimitSaver data1) S1)
      (r_rateLimitSaver data2) S2 in
  ∃ u0 key,
    newURL (addProtocol (a_url args1)) = Some u0
    ∧ key = url_origin u0 ++ url_pathname u0
    ∧ r_rateLimitSaver data1 = Some key
    ∧ r_rateLimitSaver data2 = Some key
    ∧ getRateLimit after key = Some S2
    ∧ ∀ other, other ≠ key → getRateLimit after other = getRateLimit self other.
Proof.
  intros Hurl Hon1 Hon2 Hs1 Hs2 after.
  pose proof (send_run self ent1 args1 w1) as R1.
  pose proof (send_run self ent2 args2 w2) as R2.
  destruct (getHttpRequestArgs self ent1 args1 w1) as [[d1|e1] v1] eqn:Hrun1;
    [|congruence].
  destruct (getHttpRequestArgs self ent2 args2 w2) as [[d2|e2] v2] eqn:Hrun2;
    [|congruence].
  destruct R1 as (data1' & R1 & _ & _ & _ & _ & Hsaver1).
  destruct R2 as (data2' & R2 & _ & _ & _ & _ & Hsaver2).
  rewrite Hs1 in R1. rewrite Hs2 in R2.
  injection R1 as <- _. injection R2 as <- _.
  rewrite (not_false_true _ Hon1) in Hsaver1.
  rewrite (not_false_true _ Hon2) in Hsaver2.
  destruct (descriptor_fields _ _ _ _ _ _ Hrun1) as (u1 & Hu1 & Hraw1 & _).
  destruct (descriptor_fields _ _ _ _ _ _ Hrun2) as (u2 & Hu2 & Hraw2 & _).
  rewrite <- Hurl, Hu1 in Hu2. injection Hu2 as <-.
  exists u1, (url_origin u1 ++ url_pathname u1).
  subst after. rewrite Hsaver1, Hsaver2, Hraw1, Hraw2.
  unfold getRateLimit, callRateLimitSaver, saveRateLimit. simpl.
  split_and!; try done.
  - apply lookup_insert_eq.
  - intros other Hne. by rewrite !lookup_insert_ne.
Qed.

(** X8. [send] and [sendStream] return only if the URL parses and, for a
    method that carries a body, the encoder accepts the trimmed body.
    Otherwise both throw the error [getHttpRequestArgs] throws, and by then
    the only external calls made are signatures: no request is handed to the
    executor, no stream is created and none is connected. *)
Theorem send_throws_before_anything_is_sent `{!ParamHelpersSpec} self ent args w :
  let accepted :=
    ∃ u0,
      newURL (addProtocol (a_url args)) = Some u0
      ∧ (toUpperCase (a_method args) ∈ BODY_METHODS →
         ∃ p,
           (constructBodyParams (trimmed_body w (a_body args)) ∅
              (bodyTypeOf (a_forceBodyMode args)
                 (moveUrlQueryParamsIntoObject (applyParams (a_params args) u0)
                    (formatQueryToString (query_or_empty w (a_query args)))).1)).1
           = Returned p) in
  ((∃ data w', send self ent args w = (Returned data, w')) → accepted)
  ∧ ((∃ result w', sendStream self ent args w = (Returned result, w')) → accepted)
  ∧ (¬ accepted →
     ∃ e w',
       getHttpRequestArgs self ent args w = (Thrown e, w')
       ∧ send self ent args w = (Thrown e, w')
       ∧ sendStream self ent args w = (Thrown e, w')
       ∧ ∀ ev, ev ∈ w_trace w' →
           ev ∈ w_trace w ∨ ∃ o req tokens, ev = EvAuthorize o req tokens).
Proof.
  intros accepted. subst accepted.
  pose proof (getHttpRequestArgs_returns_iff self ent args w) as Hiff.
  pose proof (send_run self ent args w) as Hsend.
  pose proof (sendStream_run self ent args w) as Hstream.
  destruct (getHttpRequestArgs_store self ent args w)
    as (_ & _ & _ & _ & _ & _ & evs & Hevs & Hall).
  destruct (getHttpRequestArgs self ent args w) as [[d|e] w1] eqn:Hrun.
  - assert (Hok : ∃ d0 w', (Returned d, w1) = (@Returned RequestDescriptor d0, w'))
      by eauto.
    apply Hiff in Hok. split_and!; [done|done|]. intros Hnot. by destruct Hnot.
  - split_and!.
    + rewrite Hsend. by intros (? & ? & ?).
    + rewrite Hstream. by intros (? & ? & ?).
    + intros _. exists e, w1. split_and!; try done.
      intros ev Hin. simpl in Hevs. rewrite Hevs in Hin.
      apply elem_of_app in Hin as [Hin|Hin]; [by left|right; by apply Hall].
Qed.

(** X9. A request built by [send] never carries the empty string as its
    body, and its headers get the length header exactly when it carries a
    body: they are [setBodyLengthHeader] of the descriptor's headers then,
    and the descriptor's headers unchanged otherwise; no other headers object
    is written by this step. *)
Theorem length_header_follows_body self ent args w data w' :
  send self ent args w = (Returned data, w') →
  r_body data ≠ Some (PayloadString "")
  ∧ ∃ d w1,
      getHttpRequestArgs self ent args w = (Returned d, w1)
      ∧ r_body data = d_body d
      ∧ o_headers (r_options data) = d_headers d
      ∧ headers_at w' (d_headers d) =
          match d_body d with
          | Some payload => setBodyLengthHeader (headers_at w1 (d_headers d)) payload
          | None => headers_at w1 (d_headers d)
          end
      ∧ ∀ l, l ≠ d_headers d → headers_at w' l = headers_at w1 l.
Proof.
  intros Hs.
  pose proof (send_run self ent args w) as R.
  destruct (getHttpRequestArgs self ent args w) as [[d|e] w1] eqn:Hrun; [|congruence].
  destruct R as (data' & R & _ & Hbody & _ & Hh & _).
  rewrite Hs in R. injection R as <- ->.
  destruct (descriptor_fields _ _ _ _ _ _ Hrun) as (_ & _ & _ & _ & Hne & _).
  split; [by rewrite Hbody|].
  exists d, w1. split_and!; try done.
  - rewrite headers_at_with_event. unfold with_length.
    destruct (d_body d) as [payload|] eqn:Hb; [|done].
    assert (payload_truthy (Some payload) = true) as ->.
    { by destruct payload as [[|]|]. }
    by rewrite headers_at_with_headers_eq.
  - intros l Hl. rewrite headers_at_with_event. unfold with_length.
    destruct (d_body d) as [payload|]; [|done].
    destruct (payload_truthy _); [|done]. by rewrite headers_at_with_headers_ne.
Qed.


(** X10. From the same parameters and the same store, [sendStream] builds
    the request [send] builds: same URL, body, method, headers object, agent,
    rate-limit hook and compression flag, and the same store of objects.
    Three fields differ: the timeout and the debug handler, which [send]
    passes on and the stream leaves out, and [payloadIsError], which the
    stream passes on and [send] leaves out. *)
Theorem send_and_sendStream_build_the_same_request self ent args w data ws :
  send self ent args w = (Returned data, ws) →
  ∃ stream result wt,
    sendStream self ent args w = (Returned result, wt)
    ∧ result = (if not_false (a_autoConnect args)
                then ConnectPromise stream else StreamHandle stream)
    ∧ r_url (ts_requestData stream) = r_url data
    ∧ r_body (ts_requestData stream) = r_body data
    ∧ o_method (r_options (ts_requestData stream)) = o_method (r_options data)
    ∧ o_headers (r_options (ts_requestData stream)) = o_headers (r_options data)
    ∧ o_agent (r_options (ts_requestData stream)) = o_agent (r_options data)
    ∧ r_rateLimitSaver (ts_requestData stream) = r_rateLimitSaver data
    ∧ r_compression (ts_requestData stream) = r_compression data
    ∧ o_timeout (r_options (ts_requestData stream)) = None
    ∧ o_timeout (r_options data) = a_timeout args
    ∧ r_requestEventDebugHandler (ts_requestData stream) = None
    ∧ r_requestEventDebugHandler data = a_requestEventDebugHandler args
    ∧ r_payloadIsError (ts_requestData stream) = a_payloadIsError args
    ∧ r_payloadIsError data = None
    ∧ w_headers wt = w_headers ws
    ∧ w_bodies wt = w_bodies ws
    ∧ w_queries wt = w_queries ws.
Proof.
  intros Hs. revert Hs.
  unfold send, sendStream, bind.
  destruct (getHttpRequestArgs self ent args w) as [[d|e] w1]; [|done].
  unfold readHeaders, writeHeaders, emit, ret.
  destruct (d_body d) as [payload|]; [destruct (payload_truthy _)|];
    intros [= <- <-]; destruct (not_false (a_autoConnect args));
    by eexists {| ts_requestData := _ |}, _, _.
Qed.

(** X11. Objects the caller did not pass are never touched by
    [getHttpRequestArgs], [send] or [sendStream]: every other headers object
    of the store, every other body object and every other query object keep
    their contents. *)
Theorem other_objects_are_untouched `{!ParamHelpersSpec} self ent args w w' :
  w' = (getHttpRequestArgs self ent args w).2
  ∨ w' = (send self ent args w).2
  ∨ w' = (sendStream self ent args w).2 →
  (∀ l, l ∈ dom (w_headers w) → a_headers args ≠ Some l →
        headers_at w' l = headers_at w l)
  ∧ (∀ l, a_body args ≠ Some (BodyRef l) → body_at w' l = body_at w l)
  ∧ (∀ l, a_query args ≠ Some l → query_at w' l = query_at w l).
Proof.
  intros Hw'.
  enough (Hall : (∀ l, l ∈ dom (w_headers w) → a_headers args ≠ Some l →
                       headers_at w' l = headers_at w l)
                 ∧ (∀ l, a_body args ≠ Some (BodyRef l) → body_at w' l = body_at w l)
                 ∧ w_queries w' = w_queries w).
  { destruct Hall as (Hh & Hb & Hq). split_and!; [done|done|].
    intros l _. unfold query_at. by rewrite Hq. }
  destruct (getHttpRequestArgs_store self ent args w)
    as (Hq & _ & Hb & _ & Hh & Hd & _).
  pose proof (send_run self ent args w) as Hsend.
  pose proof (sendStream_run self ent args w) as Hstream.
  destruct (getHttpRequestArgs self ent args w) as [[d|e] w1] eqn:Hrun; simpl in *.
  2: { assert (w' = w1) as ->; [|done].
       destruct Hw' as [->|[->| ->]]; [done|by rewrite Hsend|by rewrite Hstream]. }
  assert (Hlen : ∀ ev,
    (∀ l, l ∈ dom (w_headers w) → a_headers args ≠ Some l →
          headers_at (with_event ev (with_length d w1)) l = headers_at w l)
    ∧ (∀ l, a_body args ≠ Some (BodyRef l) →
            body_at (with_event ev (with_length d w1)) l = body_at w l)
    ∧ w_queries (with_event ev (with_length d w1)) = w_queries w).
  { intros ev. destruct (Hd d eq_refl) as (_ & Hon & Hoff).
    assert (Hne : ∀ l, l ∈ dom (w_headers w) → a_headers args ≠ Some l → d_headers d ≠ l).
    { intros l Hl Hcaller. destruct (not_false (a_enableAuth args)); auto. }
    unfold with_length. split_and!.
    - intros l Hl Hcaller. rewrite headers_at_with_event, <- (Hh l) by done.
      destruct (d_body d); [destruct (payload_truthy _)|]; try done.
      apply headers_at_with_headers_ne. by apply Hne.
    - intros l Hl. rewrite <- (Hb l Hl).
      by destruct (d_body d); [destruct (payload_truthy _)|].
    - rewrite <- Hq. by destruct (d_body d); [destruct (payload_truthy _)|]. }
  destruct Hw' as [->|[->| ->]].
  - done.
  - destruct Hsend as (data & -> & _). apply Hlen.
  - destruct Hstream as (stream & Hs & _). cbv zeta in Hs. rewrite Hs.
    destruct (not_false (a_autoConnect args)); simpl; [|apply Hlen].
    destruct (Hlen (EvNewStream (ts_requestData stream))) as (H1 & H2 & H3).
    split_and!; done.
Qed.

(** X12. For POST, PUT and PATCH the descriptor's body is what the encoder
    returns for the trimmed body under the forced body mode, or the mode
    detected from the URL when none is forced, the empty string read as no
    body; the encoder never sees a key whose value is [undefined], and a
    [Buffer] reaches it as it was given. *)
Theorem body_is_the_encoding_of_the_trimmed_body `{!ParamHelpersSpec}
    self ent args w d w' :
  getHttpRequestArgs self ent args w = (Returned d, w') →
  d_method d ∈ BODY_METHODS →
  ∃ u0 p,
    newURL (addProtocol (a_url args)) = Some u0
    ∧ (constructBodyParams (trimmed_body w (a_body args)) ∅
         (bodyTypeOf (a_forceBodyMode args)
            (moveUrlQueryParamsIntoObject (applyParams (a_params args) u0)
               (formatQueryToString (query_or_empty w (a_query args)))).1)).1
      = Returned p
    ∧ d_body d = or_undefined p
    ∧ match trimmed_body w (a_body args) with
      | DataObject m => ∀ k, m !! k ≠ Some JUndefined
      | DataBuffer bytes => a_body args = Some (BodyBuffer bytes)
      end.
Proof.
  intros Hrun Hm.
  destruct (descriptor_fields _ _ _ _ _ _ Hrun) as (u0 & Hurl & _ & Hmethod & _).
  destruct (getHttpRequestArgs_outcome self ent args w u0 Hurl) as (hl' & O).
  cbv zeta in O. rewrite Hrun in O. simpl in O.
  rewrite Hmethod in Hm. unfold is_body_method in O.
  rewrite bool_decide_eq_true_2 in O by done.
  destruct (constructBodyParams _ _ _).1 as [p|] eqn:Hp; [|done].
  injection O as ->. exists u0, p. split_and!; try done.
  destruct (a_body args) as [[l|bytes]|]; simpl; try done.
  intros k. rewrite trimUndefinedProperties_lookup.
  by destruct (body_at w l !! k) as [[]|].
Qed.

(** X13. Saves under different keys commute and a repeated save changes
    nothing; a save touches no credential, so requests are built, the signer
    is constructed and the access tokens are read exactly as before it. *)
Theorem saveRateLimit_commutes_and_keeps_credentials self key1 key2 S1 S2 :
  (key1 ≠ key2 →
   saveRateLimit (saveRateLimit self key1 S1) key2 S2
   = saveRateLimit (saveRateLimit self key2 S2) key1 S1)
  ∧ saveRateLimit (saveRateLimit self key1 S1) key1 S1 = saveRateLimit self key1 S1
  ∧ (∀ ent args w,
       getHttpRequestArgs (saveRateLimit self key1 S1) ent args w
       = getHttpRequestArgs self ent args w)
  ∧ buildOAuth (saveRateLimit self key1 S1) = buildOAuth self
  ∧ getOAuthAccessTokens (saveRateLimit self key1 S1) = getOAuthAccessTokens self.
Proof.
  split_and!; try done.
  - intros Hne. unfold saveRateLimit. simpl. f_equal. by apply insert_insert_ne.
  - unfold saveRateLimit. simpl. f_equal. by rewrite insert_insert_eq.
Qed.


(** X14. The signer is called for a request, once, exactly when OAuth1 is
    the scheme in force: auth is enabled, no bearer token, no basic token and
    no complete OAuth2 pair is held, and both the consumer secret and the
    signer are there.  In every other case no signature is asked. *)
Theorem signer_is_called_only_for_oauth1 `{!ParamHelpersSpec} self ent args w d w' :
  getHttpRequestArgs self ent args w = (Returned d, w') →
  let selected :=
    a_enableAuth args ≠ Some false
    ∧ truthy (_bearerToken self) = false
    ∧ truthy (_basicToken self) = false
    ∧ truthy (_clientId self) && truthy (_clientSecret self) = false
    ∧ truthy (_consumerSecret self) = true
    ∧ is_Some (_oauth self) in
  (selected →
   ∃ oauth request tokens,
     _oauth self = Some oauth
     ∧ w_trace w' = (w_trace w ++ [EvAuthorize oauth request tokens])%list)
  ∧ (¬ selected → w_trace w' = w_trace w).
Proof.
  intros Hrun selected. subst selected.
  destruct (getHttpRequestArgs_headers self ent args w d w' Hrun)
    as (hl & sig & url & method & query & rb & w4 & w5 & E5 & _ & Ht4 & Ht & _).
  split.
  - intros (Hon & Hbearer & Hbasic & Hclient & Hsecret & oauth & Hoauth).
    rewrite (not_false_true _ Hon) in E5.
    destruct (writeAuthHeaders_oauth1 _ _ _ _ _ _ _ _ _ _ _ _
                Hbearer Hbasic Hclient Hsecret Hoauth E5) as [Ht5 _].
    eexists oauth, _, _. split; [done|]. rewrite Ht, Ht5, Ht4. reflexivity.
  - intros Hnot. rewrite Ht, <- Ht4.
    destruct (a_enableAuth args) as [[]|] eqn:Hauth; simpl in E5.
    2: by injection E5 as _ <-.
    all: destruct (truthy (_bearerToken self)) eqn:Hbearer;
      [by destruct (writeAuthHeaders_bearer _ _ _ _ _ _ _ _ _ _ _ Hbearer E5)|].
    all: destruct (truthy (_basicToken self)) eqn:Hbasic;
      [by destruct (writeAuthHeaders_basic _ _ _ _ _ _ _ _ _ _ _ Hbearer Hbasic E5)|].
    all: destruct (truthy (_clientId self) && truthy (_clientSecret self)) eqn:Hclient;
      [by destruct (writeAuthHeaders_client _ _ _ _ _ _ _ _ _ _ _
                      Hbearer Hbasic Hclient E5)|].
    all: eapply (writeAuthHeaders_none _ _ _ _ _ _ _ _ _ _ _
                   Hbearer Hbasic Hclient); [|exact E5].
    all: destruct (truthy (_consumerSecret self)) eqn:Hsecret; [|by left].
    all: destruct (_oauth self) as [oauth|] eqn:Hoauth; [|by right].
    all: exfalso; apply Hnot; split_and!; try done; by eexists.
Qed.

(** X15. The request asks for compression unless the call or the client
    settings set [disableCompression] to [true]; a call that sets it to
    [false] does not switch compression back on for a client that disables
    it. *)
Theorem compression_is_off_when_either_side_disables self ent args w data w' :
  send self ent args w = (Returned data, w') →
  (r_compression data = false
   ↔ a_disableCompression args = Some true
     ∨ cs_disableCompression (_clientSettings self) = Some true)
  ∧ (a_disableCompression args = Some false →
     cs_disableCompression (_clientSettings self) = Some true →
     r_compression data = false).
Proof.
  unfold send, bind.
  destruct (getHttpRequestArgs self ent args w) as [[d|e] w1]; [|done].
  unfold readHeaders, writeHeaders, emit, ret.
  destruct (d_body d) as [payload|]; [destruct (payload_truthy _)|];
    intros [= <- <-]; simpl;
    destruct (a_disableCompression args) as [[]|],
      (cs_disableCompression (_clientSettings self)) as [[]|]; simpl; naive_solver.
Qed.

(** X16. With auth enabled, the objects of the caller settle after one
    call: building the descriptor again from the same parameters changes
    neither the caller's headers, nor the body, nor the query any further. *)
Theorem caller_objects_settle_after_one_call `{!ParamHelpersSpec}
    self ent1 ent2 args w d1 w1 :
  a_enableAuth args ≠ Some false →
  getHttpRequestArgs self ent1 args w = (Returned d1, w1) →
  let w2 := (getHttpRequestArgs self ent2 args w1).2 in
  (∀ l, a_headers args = Some l → headers_at w2 l = headers_at w1 l)
  ∧ (∀ l, a_body args = Some (BodyRef l) → body_at w2 l = body_at w1 l)
  ∧ w_queries w2 = w_queries w1.
Proof.
  intros Hon Hrun w2. subst w2.
  destruct (descriptor_fields _ _ _ _ _ _ Hrun) as (u0 & Hurl & _).
  destruct (getHttpRequestArgs_store self ent1 args w) as (_ & Hb1 & _ & Hh1 & _).
  rewrite Hrun in Hb1, Hh1. simpl in Hb1, Hh1.
  destruct (getHttpRequestArgs_store self ent2 args w1) as (Hq2 & Hb2 & _ & Hh2 & _).
  split_and!; [| |done].
  - intros l Hl. destruct (Hh1 l Hl) as [_ Hua1]. destruct (Hh2 l Hl) as [Hk2 Hua2].
    apply map_eq. intros k. destruct (decide (k = "x-user-agent")) as [->|Hk].
    + rewrite Hua2.
      destruct (truthy (headers_at w1 l !! "x-user-agent")) eqn:Ht; [done|].
      rewrite Hua1 in Ht.
      by destruct (truthy (headers_at w l !! "x-user-agent")) eqn:Ht'; rewrite ?Ht' in Ht.
    + apply Hk2; [done|]. left. by apply not_false_true.
  - intros l Hl. rewrite (Hb2 l Hl), (Hb1 l Hl), Hurl.
    apply trimUndefinedProperties_idemp.
Qed.

(** X17. [send] hands exactly one request to the executor, the one whose
    promise it returns, after every signature; [sendStream], when it
    returns the stream unconnected, has created exactly that one stream.
    Before that at most one signature was asked. *)
Theorem send_makes_exactly_one_request `{!ParamHelpersSpec} self ent args w :
  (∀ data w', send self ent args w = (Returned data, w') →
     ∃ signatures,
       w_trace w' = (w_trace w ++ signatures ++ [EvMakeRequest data])%list
       ∧ (List.length signatures ≤ 1)%nat
       ∧ ∀ ev, ev ∈ signatures → ∃ o req tokens, ev = EvAuthorize o req tokens)
  ∧ (∀ stream w', sendStream self ent args w = (Returned (StreamHandle stream), w') →
       ∃ signatures,
         w_trace w' = (w_trace w ++ signatures ++ [EvNewStream (ts_requestData stream)])%list
         ∧ (List.length signatures ≤ 1)%nat
         ∧ ∀ ev, ev ∈ signatures → ∃ o req tokens, ev = EvAuthorize o req tokens).
Proof.
  pose proof (send_run self ent args w) as Hsend.
  pose proof (sendStream_run self ent args w) as Hstream.
  destruct (getHttpRequestArgs self ent args w) as [[d|e] w1] eqn:Hrun.
  2: { split; intros ? ? Hs; congruence. }
  assert (Hlen : w_trace (with_length d w1) = w_trace w1).
  { unfold with_length. by destruct (d_body d); [destruct (payload_truthy _)|]. }
  assert (∃ signatures,
    w_trace w1 = (w_trace w ++ signatures)%list
    ∧ (List.length signatures ≤ 1)%nat
    ∧ ∀ ev, ev ∈ signatures → ∃ o req tokens, ev = EvAuthorize o req tokens)
    as (signatures & Htrace & Hone & Hall).
  { destruct (getHttpRequestArgs_headers self ent args w d w1 Hrun)
      as (hl & sig & url & method & query & rb & w4 & w5 & E5 & _ & Ht4 & Ht & _).
    rewrite Ht, <- Ht4. clear Hsend Hstream Hrun Hlen Ht Ht4.
    destruct (not_false (a_enableAuth args)).
    2: { injection E5 as _ <-. exists []. rewrite app_nil_r. split_and!; [done|simpl; lia|].
         intros ev Hev. inversion Hev. }
    revert E5.
    unfold writeAuthHeaders, bind, readHeaders, allocHeaders, setHeader, writeHeaders, ret,
      readBodyData, emit.
    destruct (truthy (_bearerToken self)); simpl;
      [|destruct (truthy (_basicToken self)); simpl;
        [|destruct (truthy (_clientId self) && truthy (_clientSecret self)); simpl;
          [|destruct (truthy (_consumerSecret self)), (_oauth self) as [o|]; simpl]]].
    4: destruct sig; simpl.
    all: intros [= _ <-]; simpl.
    1-3,6-8: (exists []; rewrite app_nil_r; split_and!; [done|simpl; lia|];
              intros ev Hev; inversion Hev).
    all: eexists [_]; split_and!; [reflexivity|simpl; lia|].
    all: intros ev ->%list_elem_of_singleton; eauto. }
  split.
  - intros data w' Hs. destruct Hsend as (data' & Hsend & _).
    rewrite Hs in Hsend. injection Hsend as -> ->.
    exists signatures. simpl. rewrite Hlen, Htrace, <- app_assoc. done.
  - intros stream w' Hs. destruct Hstream as (stream' & Hstream & _).
    cbv zeta in Hstream. rewrite Hs in Hstream.
    destruct (not_false (a_autoConnect args)); [done|].
    injection Hstream as -> ->.
    exists signatures. simpl. rewrite Hlen, Htrace, <- app_assoc. done.
Qed.

(** X18. The URL that is parsed always starts with ["http"], and adding the
    protocol a second time changes nothing. *)
Theorem addProtocol_is_idempotent url :
  String.prefix "http" (addProtocol url) = true
  ∧ addProtocol (addProtocol url) = addProtocol url.
Proof.
  assert (Hp : String.prefix "http" (addProtocol url) = true).
  { unfold addProtocol. by destruct (String.prefix "http" url) eqn:Hurl. }
  split; [done|]. unfold addProtocol at 1. by rewrite Hp.
Qed.

End MoreProperties.

(** ** The further properties on the sample platform *)

Lemma sample_oauth_spec : @OAuthApiSpec Sample.oauth.
Proof. split. intros o auth k Hk. simpl. by rewrite lookup_singleton_ne. Qed.

(** The sample calls used below return. *)
Lemma sample_post_returns self ent :
  ∃ d w',
    getHttpRequestArgs self ent (withObjects "POST" "api.twitter.com/1.1/x.json")
      callerWorld = (Returned d, w').
Proof.
  apply (getHttpRequestArgs_returns_iff (H0 := sample_helpers_spec)).
  eexists. split; [reflexivity|]. intros _. eexists. vm_compute. reflexivity.
Qed.

Lemma descriptor_headers_come_from_caller_witness :
  ∃ d w',
    getHttpRequestArgs oauthClient entropy
      (withObjects "POST" "api.twitter.com/1.1/x.json") callerWorld = (Returned d, w')
    ∧ headers_at w' (d_headers d) !! "accept" = Some "*/*"
    ∧ headers_at w' (d_headers d) !! "x-user-agent" = Some "Node.twitter-api-v2".
Proof.
  destruct (sample_post_returns oauthClient entropy) as (d & w' & Hrun).
  exists d, w'. split; [exact Hrun|].
  destruct (descriptor_headers_come_from_caller
              (H0 := sample_helpers_spec) (H1 := sample_oauth_spec)
              oauthClient entropy _ _ d w' Hrun) as (Hkeys & Hagent & _).
  split.
  - rewrite Hkeys by discriminate. reflexivity.
  - rewrite Hagent. reflexivity.
Defined.

Lemma sample_without_auth_returns self ent :
  ∃ d w',
    getHttpRequestArgs self ent (withoutAuth "POST" "api.twitter.com/1.1/x.json")
      callerWorld = (Returned d, w').
Proof.
  apply (getHttpRequestArgs_returns_iff (H0 := sample_helpers_spec)).
  eexists. split; [reflexivity|]. intros _. eexists. vm_compute. reflexivity.
Qed.

Lemma sample_user_tweets_returns self ent id :
  ∃ d w', getHttpRequestArgs self ent (userTweets id) emptyWorld = (Returned d, w').
Proof.
  apply (getHttpRequestArgs_returns_iff (H0 := sample_helpers_spec)).
  eexists. split; [reflexivity|]. intros Hm. exfalso. revert Hm.
  refine (proj1 (bool_decide_eq_false _) _). vm_compute. reflexivity.
Qed.

Lemma send_returns_after_descriptor `{PH : ParamHelpers} `{OA : OAuthApi}
    (self : ClientRequestMaker) ent args w d w1 :
  getHttpRequestArgs self ent args w = (Returned d, w1) →
  ∃ data w', send self ent args w = (Returned data, w').
Proof.
  intros Hrun. pose proof (send_run self ent args w) as R. rewrite Hrun in R.
  destruct R as (data & R & _). eauto.
Qed.



Lemma rate_limit_last_write_wins_witness :
  getRateLimit
    (saveRateLimit
       (saveRateLimit anonymous "https://api.twitter.com/1.1/x.json"
          {| rl_limit := 900; rl_remaining := 899; rl_reset := 1700000000 |})
       "https://api.twitter.com/1.1/x.json"
       {| rl_limit := 900; rl_remaining := 898; rl_reset := 1700000000 |})
    "https://api.twitter.com/1.1/x.json"
  = Some {| rl_limit := 900; rl_remaining := 898; rl_reset := 1700000000 |}.
Proof.
  exact (proj1 (rate_limit_last_write_wins anonymous "https://api.twitter.com/1.1/x.json"
                  {| rl_limit := 900; rl_remaining := 899; rl_reset := 1700000000 |}
                  {| rl_limit := 900; rl_remaining := 898; rl_reset := 1700000000 |}
                  ltac:(discriminate))).
Defined.

Lemma invalid_url_throws_after_user_agent_witness :
  ∃ w',
    getHttpRequestArgs oauthClient entropy (withObjects "POST" "http://") callerWorld
      = (Thrown "Invalid URL", w')
    ∧ w_trace w' = []
    ∧ headers_at w' 1%positive !! "x-user-agent" = Some "Node.twitter-api-v2"
    ∧ body_at w' 1%positive !! "b" = Some JUndefined.
Proof.
  destruct (invalid_url_throws_after_user_agent oauthClient entropy
              (withObjects "POST" "http://") callerWorld eq_refl)
    as (w' & Hrun & _ & _ & Htrace & _ & Hbody & Hheaders).
  exists w'. split; [exact Hrun|]. split; [exact Htrace|]. split.
  - rewrite (Hheaders 1%positive eq_refl). reflexivity.
  - rewrite Hbody. reflexivity.
Defined.

Lemma disabled_auth_signs_nothing_witness :
  ∃ d w',
    getHttpRequestArgs bearerClient entropy
      (withoutAuth "POST" "api.twitter.com/1.1/x.json") callerWorld = (Returned d, w')
    ∧ w_trace w' = []
    ∧ headers_at w' (d_headers d) !! "Authorization" = None
    ∧ d_headers d = 1%positive.
Proof.
  destruct (sample_without_auth_returns bearerClient entropy) as (d & w' & Hrun).
  exists d, w'. split; [exact Hrun|].
  destruct (disabled_auth_signs_nothing (H0 := sample_helpers_spec)
              bearerClient entropy
              (withoutAuth "POST" "api.twitter.com/1.1/x.json") callerWorld d w'
              eq_refl Hrun)
    as (Htrace & Hauth & Halias & _).
  split; [exact Htrace|]. split; [rewrite Hauth; reflexivity|].
  exact (Halias 1%positive eq_refl).
Defined.

Lemma enabled_auth_returns_a_fresh_headers_object_witness :
  ∃ d w',
    getHttpRequestArgs bearerClient entropy
      (withObjects "POST" "api.twitter.com/1.1/x.json") callerWorld = (Returned d, w')
    ∧ d_headers d ≠ 1%positive.
Proof.
  destruct (sample_post_returns bearerClient entropy) as (d & w' & Hrun).
  exists d, w'. split; [exact Hrun|].
  destruct (enabled_auth_returns_a_fresh_headers_object (H0 := sample_helpers_spec)
              bearerClient entropy
              (withObjects "POST" "api.twitter.com/1.1/x.json") callerWorld d w'
              ltac:(simpl; discriminate) Hrun) as (_ & Hcaller & _).
  intros Heq. apply Hcaller. rewrite Heq. reflexivity.
Defined.

Lemma basic_schemes_precede_oauth1_witness :
  ∃ d w',
    getHttpRequestArgs basicClient entropy
      (withObjects "POST" "api.twitter.com/1.1/x.json") callerWorld = (Returned d, w')
    ∧ headers_at w' (d_headers d) !! "Authorization" = Some "Basic bt"
    ∧ w_trace w' = [].
Proof.
  destruct (sample_post_returns basicClient entropy) as (d & w' & Hrun).
  exists d, w'. split; [exact Hrun|].
  exact (proj1 (basic_schemes_precede_oauth1 (H0 := sample_helpers_spec)
                  basicClient entropy
                  (withObjects "POST" "api.twitter.com/1.1/x.json") callerWorld d w'
                  eq_refl ltac:(simpl; discriminate) Hrun) eq_refl).
Defined.

Lemma oauth1_tokens_need_both_halves_witness :
  ∃ d w' request,
    getHttpRequestArgs appOnlyClient entropy
      (withObjects "POST" "api.twitter.com/1.1/x.json") callerWorld = (Returned d, w')
    ∧ w_trace w' = [EvAuthorize signer request None].
Proof.
  destruct (sample_post_returns appOnlyClient entropy) as (d & w' & Hrun).
  destruct (oauth1_tokens_need_both_halves (H0 := sample_helpers_spec)
              appOnlyClient entropy
              (withObjects "POST" "api.twitter.com/1.1/x.json") callerWorld signer d w'
              eq_refl eq_refl eq_refl eq_refl eq_refl ltac:(simpl; discriminate) Hrun)
    as (request & tokens & Htrace & _ & Hnone).
  exists d, w', request. split; [exact Hrun|].
  rewrite Htrace, (Hnone (or_intror eq_refl)). reflexivity.
Defined.

Lemma rate_limits_are_kept_per_endpoint_witness :
  ∃ data1 w1 data2 w2,
    send bearerClient entropy (userTweets "12") emptyWorld = (Returned data1, w1)
    ∧ send bearerClient entropy (userTweets "34") emptyWorld = (Returned data2, w2)
    ∧ getRateLimit
        (callRateLimitSaver
           (callRateLimitSaver bearerClient (r_rateLimitSaver data1)
              {| rl_limit := 900; rl_remaining := 899; rl_reset := 1700000000 |})
           (r_rateLimitSaver data2)
           {| rl_limit := 900; rl_remaining := 898; rl_reset := 1700000000 |})
        "https://api.twitter.com/2/users/:id/tweets"
      = Some {| rl_limit := 900; rl_remaining := 898; rl_reset := 1700000000 |}.
Proof.
  destruct (sample_user_tweets_returns bearerClient entropy "12") as (d1 & v1 & Hrun1).
  destruct (sample_user_tweets_returns bearerClient entropy "34") as (d2 & v2 & Hrun2).
  destruct (send_returns_after_descriptor _ _ _ _ _ _ Hrun1) as (data1 & w1 & Hs1).
  destruct (send_returns_after_descriptor _ _ _ _ _ _ Hrun2) as (data2 & w2 & Hs2).
  exists data1, w1, data2, w2. split; [exact Hs1|]. split; [exact Hs2|].
  destruct (rate_limits_are_kept_per_endpoint bearerClient entropy entropy
              (userTweets "12") (userTweets "34") emptyWorld emptyWorld
              data1 data2 w1 w2
              {| rl_limit := 900; rl_remaining := 899; rl_reset := 1700000000 |}
              {| rl_limit := 900; rl_remaining := 898; rl_reset := 1700000000 |}
              eq_refl ltac:(simpl; discriminate) ltac:(simpl; discriminate) Hs1 Hs2)
    as (u0 & key & Hurl & Hkey & _ & _ & Hget & _).
  injection Hurl as <-. rewrite Hkey in Hget. exact Hget.
Defined.

Lemma send_throws_before_anything_is_sent_witness :
  ∃ e w',
    send oauthClient entropy (withObjects "POST" "http://") callerWorld = (Thrown e, w')
    ∧ sendStream oauthClient entropy (withObjects "POST" "http://") callerWorld
        = (Thrown e, w')
    ∧ ∀ ev, ev ∈ w_trace w' → ∃ o req tokens, ev = EvAuthorize o req tokens.
Proof.
  destruct (send_throws_before_anything_is_sent (H0 := sample_helpers_spec)
              oauthClient entropy (withObjects "POST" "http://") callerWorld)
    as (_ & _ & Hthrown).
  destruct Hthrown as (e & w' & _ & Hsend & Hstream & Htrace).
  { intros (u0 & Hurl & _). discriminate Hurl. }
  exists e, w'. split; [exact Hsend|]. split; [exact Hstream|].
  intros ev Hin. destruct (Htrace ev Hin) as [Hold|Hsigned].
  - simpl in Hold. inversion Hold.
  - exact Hsigned.
Defined.

Lemma length_header_follows_body_witness :
  ∃ data w',
    send oauthClient entropy (withObjects "POST" "api.twitter.com/1.1/x.json")
      callerWorld = (Returned data, w')
    ∧ r_body data ≠ Some (PayloadString "").
Proof.
  destruct (sample_post_returns oauthClient entropy) as (d & w1 & Hrun).
  destruct (send_returns_after_descriptor _ _ _ _ _ _ Hrun) as (data & w' & Hsend).
  exists data, w'. split; [exact Hsend|].
  exact (proj1 (length_header_follows_body oauthClient entropy _ _ data w' Hsend)).
Defined.

Lemma send_and_sendStream_build_the_same_request_witness :
  ∃ data ws stream wt,
    send oauthClient entropy (withObjects "POST" "api.twitter.com/1.1/x.json")
      callerWorld = (Returned data, ws)
    ∧ sendStream oauthClient entropy (withObjects "POST" "api.twitter.com/1.1/x.json")
        callerWorld = (Returned (ConnectPromise stream), wt)
    ∧ r_body (ts_requestData stream) = r_body data
    ∧ r_url (ts_requestData stream) = r_url data
    ∧ w_headers wt = w_headers ws.
Proof.
  destruct (sample_post_returns oauthClient entropy) as (d & w1 & Hrun).
  destruct (send_returns_after_descriptor _ _ _ _ _ _ Hrun) as (data & ws & Hsend).
  destruct (send_and_sendStream_build_the_same_request oauthClient entropy
              (withObjects "POST" "api.twitter.com/1.1/x.json") callerWorld data ws Hsend)
    as (stream & result & wt & Hstream & Hresult & Hurl & Hbody & _ & _ & _ & _ & _ & _
        & _ & _ & _ & _ & _ & Hheaders & _).
  exists data, ws, stream, wt. split; [exact Hsend|].
  simpl in Hresult. rewrite Hresult in Hstream. by split_and!.
Defined.

Lemma other_objects_are_untouched_witness :
  let w' :=
    (send oauthClient entropy (request "POST" "api.twitter.com/1.1/x.json")
       callerWorld).2 in
  headers_at w' 1%positive = headers_at callerWorld 1%positive
  ∧ body_at w' 1%positive = body_at callerWorld 1%positive
  ∧ query_at w' 1%positive = query_at callerWorld 1%positive.
Proof.
  intros w'.
  destruct (other_objects_are_untouched (H0 := sample_helpers_spec)
              oauthClient entropy (request "POST" "api.twitter.com/1.1/x.json")
              callerWorld w' (or_intror (or_introl eq_refl)))
    as (Hheaders & Hbodies & Hqueries).
  split_and!.
  - apply Hheaders; [|discriminate].
    refine (bool_decide_unpack _ _). vm_compute. exact I.
  - apply Hbodies. discriminate.
  - apply Hqueries. discriminate.
Defined.

Lemma body_is_the_encoding_of_the_trimmed_body_witness :
  ∃ d w',
    getHttpRequestArgs oauthClient entropy
      (withObjects "POST" "api.twitter.com/1.1/x.json") callerWorld = (Returned d, w')
    ∧ d_body d = Some (PayloadString "a=1").
Proof.
  destruct (sample_post_returns oauthClient entropy) as (d & w' & Hrun).
  exists d, w'. split; [exact Hrun|].
  destruct (body_is_the_encoding_of_the_trimmed_body (H0 := sample_helpers_spec)
              oauthClient entropy _ _ d w' Hrun) as (u0 & p & Hurl & Hp & -> & _).
  - destruct (descriptor_fields _ _ _ _ _ _ Hrun) as (_ & _ & _ & -> & _).
    refine (bool_decide_unpack _ _). vm_compute. exact I.
  - injection Hurl as <-. vm_compute in Hp. by injection Hp as <-.
Defined.

Lemma signer_is_called_only_for_oauth1_witness :
  ∃ d w',
    getHttpRequestArgs basicClient entropy
      (withObjects "POST" "api.twitter.com/1.1/x.json") callerWorld = (Returned d, w')
    ∧ w_trace w' = [].
Proof.
  destruct (sample_post_returns basicClient entropy) as (d & w' & Hrun).
  exists d, w'. split; [exact Hrun|].
  apply (proj2 (signer_is_called_only_for_oauth1 (H0 := sample_helpers_spec)
                  basicClient entropy
                  (withObjects "POST" "api.twitter.com/1.1/x.json") callerWorld
                  d w' Hrun)).
  intros (_ & _ & Hbasic & _). discriminate Hbasic.
Defined.

Lemma compression_is_off_when_either_side_disables_witness :
  ∃ data w',
    send appOnlyClient entropy (withoutAuth "POST" "api.twitter.com/1.1/x.json")
      callerWorld = (Returned data, w')
    ∧ r_compression data = false.
Proof.
  destruct (sample_without_auth_returns appOnlyClient entropy) as (d & w1 & Hrun).
  destruct (send_returns_after_descriptor _ _ _ _ _ _ Hrun) as (data & w' & Hsend).
  exists data, w'. split; [exact Hsend|].
  exact (proj2 (compression_is_off_when_either_side_disables appOnlyClient entropy
                  (withoutAuth "POST" "api.twitter.com/1.1/x.json") callerWorld
                  data w' Hsend) eq_refl eq_refl).
Defined.

Lemma caller_objects_settle_after_one_call_witness :
  ∃ d1 w1,
    getHttpRequestArgs oauthClient entropy
      (withObjects "POST" "api.twitter.com/1.1/x.json") callerWorld = (Returned d1, w1)
    ∧ headers_at
        (getHttpRequestArgs oauthClient entropy
           (withObjects "POST" "api.twitter.com/1.1/x.json") w1).2 1%positive
      = headers_at w1 1%positive.
Proof.
  destruct (sample_post_returns oauthClient entropy) as (d1 & w1 & Hrun).
  exists d1, w1. split; [exact Hrun|].
  exact (proj1 (caller_objects_settle_after_one_call (H0 := sample_helpers_spec)
                  oauthClient entropy entropy
                  (withObjects "POST" "api.twitter.com/1.1/x.json") callerWorld d1 w1
                  ltac:(simpl; discriminate) Hrun) 1%positive eq_refl).
Defined.

Lemma send_makes_exactly_one_request_witness :
  ∃ data w' signatures,
    send oauthClient entropy (withObjects "POST" "api.twitter.com/1.1/x.json")
      callerWorld = (Returned data, w')
    ∧ w_trace w' = (signatures ++ [EvMakeRequest data])%list
    ∧ (List.length signatures ≤ 1)%nat.
Proof.
  destruct (sample_post_returns oauthClient entropy) as (d & w1 & Hrun).
  destruct (send_returns_after_descriptor _ _ _ _ _ _ Hrun) as (data & w' & Hsend).
  destruct (proj1 (send_makes_exactly_one_request (H0 := sample_helpers_spec)
                     oauthClient entropy
                     (withObjects "POST" "api.twitter.com/1.1/x.json") callerWorld)
              data w' Hsend) as (signatures & Htrace & Hone & _).
  exists data, w', signatures. split; [exact Hsend|]. split; [exact Htrace|exact Hone].
Defined.
